(** * open_in_editor: URI parsing and editor dispatch

    A shallow embedding of [open_in_editor.py] and of the pieces of the
    Python 3.11 standard library it calls ([urllib.parse.urlparse],
    [unquote], [parse_qsl], [int], [str] of an [int], [str.rsplit],
    [shlex.quote], [shutil.which], [subprocess.run],
    [subprocess.check_call]).

    A Python [str] is represented by the [string] of its UTF-8 bytes, so
    every ASCII character is one [ascii] and a non-ASCII character is the
    run of bytes [>= 0x80] that encodes it. *)

From Stdlib Require Import ZArith NArith Ascii String List Bool Lia.
From stdpp Require Import base option list strings pretty gmap.

Local Open Scope N_scope.

(** ** Characters *)

Definition ord (c : ascii) : N := N_of_ascii c.
Definition chr (n : N) : ascii := ascii_of_N n.

Definition in_range (lo hi : N) (c : ascii) : bool :=
  (lo <=? ord c) && (ord c <=? hi).

Definition is_digit (c : ascii) : bool := in_range 48 57 c.
Definition is_upper (c : ascii) : bool := in_range 65 90 c.
Definition is_lower (c : ascii) : bool := in_range 97 122 c.
Definition is_ascii_alpha (c : ascii) : bool := is_upper c || is_lower c.
Definition is_ascii (c : ascii) : bool := ord c <? 128.

Definition to_lower (c : ascii) : ascii :=
  if is_upper c then chr (ord c + 32) else c.

(** The double quote and the single quote, by code. *)
Definition dquote : string := String (chr 34) "".
Definition squote : string := String (chr 39) "".

(** ** [str] methods *)

Fixpoint forallb_str (P : ascii → bool) (s : string) : bool :=
  match s with
  | "" => true
  | String c s' => P c && forallb_str P s'
  end.

(** [c in s] *)
Fixpoint contains (c : ascii) (s : string) : bool :=
  match s with
  | "" => false
  | String d s' => Ascii.eqb d c || contains c s'
  end.

Fixpoint map_str (f : ascii → ascii) (s : string) : string :=
  match s with
  | "" => ""
  | String c s' => String (f c) (map_str f s')
  end.

(** [s.lower()] on text made of ASCII letters, digits and punctuation. *)
Definition lower (s : string) : string := map_str to_lower s.

(** [s.lstrip(chars)], the set [chars] given as a predicate. *)
Fixpoint lstrip (P : ascii → bool) (s : string) : string :=
  match s with
  | "" => ""
  | String c s' => if P c then lstrip P s' else s
  end.

(** [s.replace(c, new)] for a one-character [c]. *)
Fixpoint replace (c : ascii) (new : string) (s : string) : string :=
  match s with
  | "" => ""
  | String d s' =>
      if Ascii.eqb d c then new +:+ replace c new s'
      else String d (replace c new s')
  end.

(** [s.split(c, 1)] when [c] occurs in [s]: the text before the first
    [c] and the text after it; [None] when [c] does not occur (Python
    then returns the one-element list [[s]], and [s.find(c)] is [-1]). *)
Fixpoint split_first (c : ascii) (s : string) : option (string * string) :=
  match s with
  | "" => None
  | String d s' =>
      if Ascii.eqb d c then Some ("", s')
      else match split_first c s' with
           | Some (a, b) => Some (String d a, b)
           | None => None
           end
  end.

(** The text before the last [c] and the text after it. *)
Fixpoint split_last (c : ascii) (s : string) : option (string * string) :=
  match s with
  | "" => None
  | String d s' =>
      match split_last c s' with
      | Some (a, b) => Some (String d a, b)
      | None => if Ascii.eqb d c then Some ("", s') else None
      end
  end.

(** [s.split(c)]: always at least one piece. *)
Fixpoint split (c : ascii) (s : string) : list string :=
  match s with
  | "" => [""]
  | String d s' =>
      if Ascii.eqb d c then "" :: split c s'
      else match split c s' with
           | p :: ps => String d p :: ps
           | [] => [String d ""]
           end
  end.

(** [s.split(c, 1)] *)
Definition split1 (c : ascii) (s : string) : list string :=
  match split_first c s with
  | Some (a, b) => [a; b]
  | None => [s]
  end.

(** [s.rsplit(c, maxsplit=1)] *)
Definition rsplit (s : string) (c : ascii) : list string :=
  match split_last c s with
  | Some (a, b) => [a; b]
  | None => [s]
  end.

(** [sep.join(l)] *)
Definition join (sep : string) (l : list string) : string :=
  String.concat sep l.

(** The longest prefix whose characters satisfy [P], and the rest. *)
Fixpoint span (P : ascii → bool) (s : string) : string * string :=
  match s with
  | "" => ("", "")
  | String c s' =>
      if P c then let '(a, b) := span P s' in (String c a, b)
      else ("", s)
  end.

(** ** Exceptions and the outside world *)

Inductive exn : Type :=
  | RuntimeError (what : string)
  | ValueError
  | CalledProcessError (returncode : Z) (cmd : list string)
  | OSError (errno : Z).

(** What spawning a child process gives: it ran and exited with a
    return code, or it could not be started and Python raised. *)
Inductive spawned : Type :=
  | Exited (returncode : Z)
  | NotStarted (e : exn).

(** Everything the program asks of its surroundings.
    [which] is the truth value of [shutil.which]; [spawn] is what
    starting a child with a given argument vector and waiting for it
    gives.  The two netloc fields stand for the checks [urlsplit] hands
    to [ipaddress] and [unicodedata]: [bracketed_netloc_ok] for
    [_check_bracketed_netloc], asked only of an authority that has both
    brackets, and [nfkc_netloc_ok] for [_checknetloc], asked only of a
    non-ASCII authority; [urlsplit] raises [ValueError] when the one it
    asks answers [false]. *)
Record Env : Type := {
  which : string → bool;
  spawn : list string → spawned;
  bracketed_netloc_ok : string → bool;
  nfkc_netloc_ok : string → bool;
}.

Inductive result (A : Type) : Type :=
  | Ok (a : A)
  | Raise (e : exn).
Arguments Ok {A} a.
Arguments Raise {A} e.

(** A computation reads the environment, and yields the argument
    vectors of the children it spawned, in order, with its outcome. *)
Definition M (A : Type) : Type := Env → list (list string) * result A.

Definition M_ret_def {A} (a : A) : M A := λ _, ([], Ok a).
Definition raise {A} (e : exn) : M A := λ _, ([], Raise e).
Definition M_bind_def {A B} (k : A → M B) (m : M A) : M B := λ env,
  match m env with
  | (l1, Ok a) => let '(l2, r) := k a env in (l1 ++ l2, r)
  | (l1, Raise e) => (l1, Raise e)
  end.

#[global] Instance M_ret : MRet M := @M_ret_def.
#[global] Instance M_bind : MBind M := @M_bind_def.

(** [shutil.which(cmd)] as a truth value *)
Definition shutil_which (cmd : string) : M bool := λ env, ([], Ok (which env cmd)).

(** [subprocess.run(cmd)]: the return code is handed back unchecked. *)
Definition run (cmd : list string) : M Z := λ env,
  match spawn env cmd with
  | Exited rc => ([cmd], Ok rc)
  | NotStarted e => ([cmd], Raise e)
  end.

(** [subprocess.check_call(cmd)] *)
Definition check_call (cmd : list string) : M unit := λ env,
  match spawn env cmd with
  | Exited rc =>
      if (rc =? 0)%Z then ([cmd], Ok tt)
      else ([cmd], Raise (CalledProcessError rc cmd))
  | NotStarted e => ([cmd], Raise e)
  end.

(** ** [urllib.parse.urlparse] *)

Record ParseResult : Type := {
  scheme : string;
  netloc : string;
  path : string;
  params : string;
  query : string;
  fragment : string;
}.

(** [_WHATWG_C0_CONTROL_OR_SPACE] *)
Definition is_c0_control_or_space (c : ascii) : bool := ord c <=? 32.

(** [scheme_chars] *)
Definition is_scheme_char (c : ascii) : bool :=
  is_lower c || is_upper c || is_digit c
  || Ascii.eqb c "+" || Ascii.eqb c "-" || Ascii.eqb c ".".

Definition uses_params : list string :=
  [""; "ftp"; "hdl"; "prospero"; "http"; "imap"; "https"; "shttp"; "rtsp";
   "rtspu"; "sip"; "sips"; "mms"; "sftp"; "tel"].

(** The loop over [_UNSAFE_URL_BYTES_TO_REMOVE]. *)
Definition remove_unsafe (url : string) : string :=
  replace "010" "" (replace "013" "" (replace "009" "" url)).

(** [i = url.find(':')] and the test that follows it in [urlsplit]. *)
Definition split_scheme (url : string) : string * string :=
  match split_first ":" url with
  | Some (String c0 pre, rest) =>
      if is_ascii c0 && is_ascii_alpha c0
         && forallb_str is_scheme_char (String c0 pre)
      then (lower (String c0 pre), rest)
      else ("", url)
  | _ => ("", url)
  end.

(** [_splitnetloc(url, 2)], given [url[2:]]. *)
Definition splitnetloc (after : string) : string * string :=
  span (λ c, negb (Ascii.eqb c "/" || Ascii.eqb c "?" || Ascii.eqb c "#")) after.

Definition brackets_ok (env : Env) (nl : string) : bool :=
  if xorb (contains "[" nl) (contains "]" nl) then false
  else if contains "[" nl then bracketed_netloc_ok env nl
  else true.

Definition checknetloc (env : Env) (nl : string) : bool :=
  if String.eqb nl "" || forallb_str is_ascii nl then true
  else nfkc_netloc_ok env nl.

(** [urlsplit(url)] with its default arguments; [None] is [ValueError]. *)
Definition urlsplit (env : Env) (url : string)
  : option (string * string * string * string * string) :=
  let url := lstrip is_c0_control_or_space url in
  let url := remove_unsafe url in
  let '(sch, url) := split_scheme url in
  let '(nl, url, ok) :=
    match url with
    | String "/" (String "/" after) =>
        let '(nl, rest) := splitnetloc after in (nl, rest, brackets_ok env nl)
    | _ => ("", url, true)
    end in
  if negb ok then None else
  let '(url, frag) :=
    match split_first "#" url with
    | Some (a, b) => (a, b)
    | None => (url, "")
    end in
  let '(url, qry) :=
    match split_first "?" url with
    | Some (a, b) => (a, b)
    | None => (url, "")
    end in
  if checknetloc env nl then Some (sch, nl, url, qry, frag) else None.

(** [_splitparams(url)], called when [';' in url]. *)
Definition splitparams (url : string) : string * string :=
  match split_last "/" url with
  | Some (dir, base) =>
      match split_first ";" base with
      | Some (a, b) => (dir +:+ "/" +:+ a, b)
      | None => (url, "")
      end
  | None =>
      match split_first ";" url with
      | Some (a, b) => (a, b)
      | None => (url, "")
      end
  end.

Definition urlparse (url : string) : M ParseResult := λ env,
  match urlsplit env url with
  | None => ([], Raise ValueError)
  | Some (sch, nl, url, qry, frag) =>
      let '(url, prm) :=
        if bool_decide (sch ∈ uses_params) && contains ";" url
        then splitparams url else (url, "") in
      ([], Ok {| scheme := sch; netloc := nl; path := url; params := prm;
                 query := qry; fragment := frag |})
  end.

(** ** [urllib.parse.unquote] *)

(** The value of a hexadecimal digit ([_hexdig]). *)
Definition hex_value (c : ascii) : option N :=
  if is_digit c then Some (ord c - 48)
  else if in_range 65 70 c then Some (ord c - 55)
  else if in_range 97 102 c then Some (ord c - 87)
  else None.

(** One piece after a [%] in [unquote_to_bytes]: [_hextobyte[item[:2]]]
    followed by [item[2:]], or on [KeyError] the [%] and the piece. *)
Definition unquote_item (item : string) : string :=
  match item with
  | String a (String b rest) =>
      match hex_value a, hex_value b with
      | Some h, Some l => String (chr (16 * h + l)) rest
      | _, _ => "%" +:+ item
      end
  | _ => "%" +:+ item
  end.

Definition unquote_to_bytes (s : string) : string :=
  match split "%" s with
  | [] => ""
  | first :: items => first +:+ String.concat "" (map unquote_item items)
  end.

(** U+FFFD in UTF-8. *)
Definition replacement : string :=
  String (chr 239) (String (chr 191) (String (chr 189) "")).

Definition is_continuation (c : ascii) : bool := in_range 128 191 c.

(** The second byte of a three- or four-byte sequence led by [c]. *)
Definition second_ok (c c2 : ascii) : bool :=
  is_continuation c2 &&
  negb (if ord c2 <? 160 then ord c =? 224 else ord c =? 237) &&
  negb (if ord c2 <? 144 then ord c =? 240 else ord c =? 244).

(** [bytes.decode('utf-8', 'replace')], the result again in UTF-8: a
    well-formed sequence is kept, and each ill-formed run that CPython's
    decoder reports as one error gives one U+FFFD. *)
Fixpoint decode_replace (s : string) : string :=
  match s with
  | "" => ""
  | String c s1 =>
      if ord c <? 128 then String c (decode_replace s1)
      else if ord c <? 194 then replacement +:+ decode_replace s1
      else if ord c <? 224 then
        match s1 with
        | "" => replacement
        | String c2 s2 =>
            if is_continuation c2
            then String c (String c2 (decode_replace s2))
            else replacement +:+ decode_replace s1
        end
      else if ord c <? 240 then
        match s1 with
        | "" => replacement
        | String c2 s2 =>
            if negb (second_ok c c2) then replacement +:+ decode_replace s1
            else match s2 with
                 | "" => replacement
                 | String c3 s3 =>
                     if is_continuation c3
                     then String c (String c2 (String c3 (decode_replace s3)))
                     else replacement +:+ decode_replace s2
                 end
        end
      else if ord c <? 245 then
        match s1 with
        | "" => replacement
        | String c2 s2 =>
            if negb (second_ok c c2) then replacement +:+ decode_replace s1
            else match s2 with
                 | "" => replacement
                 | String c3 s3 =>
                     if negb (is_continuation c3)
                     then replacement +:+ decode_replace s2
                     else match s3 with
                          | "" => replacement
                          | String c4 s4 =>
                              if is_continuation c4
                              then String c (String c2 (String c3
                                     (String c4 (decode_replace s4))))
                              else replacement +:+ decode_replace s3
                          end
                 end
        end
      else replacement +:+ decode_replace s1
  end.

(** One ASCII piece of [_asciire.split]: unquoted, then decoded. *)
Definition unquote_ascii_run (r : string) : string :=
  match r with
  | "" => ""
  | _ => decode_replace (unquote_to_bytes r)
  end.

(** The loop over the pieces of [_asciire.split(string)]: [r] is the
    ASCII run read so far; non-ASCII text is kept as it is. *)
Fixpoint unquote_runs (r : string) (s : string) : string :=
  match s with
  | "" => unquote_ascii_run r
  | String c s' =>
      if is_ascii c then unquote_runs (r +:+ String c "") s'
      else unquote_ascii_run r +:+ String c (unquote_runs "" s')
  end.

Definition unquote (s : string) : string :=
  if negb (contains "%" s) then s else unquote_runs "" s.

(** ** [urllib.parse.parse_qsl] and [dict] *)

(** One field of the query; blank values and fields without [=] are
    dropped ([keep_blank_values=False], [strict_parsing=False]). *)
Definition parse_field (name_value : string) : list (string * string) :=
  match split1 "=" name_value with
  | [n; v] =>
      if String.eqb v "" then []
      else [(unquote (replace "+" " " n), unquote (replace "+" " " v))]
  | _ => []
  end.

Definition parse_qsl (qs : string) : list (string * string) :=
  if String.eqb qs "" then []
  else concat (map parse_field (split "&" qs)).

(** [dict(pairs)]: the pairs are inserted in order. *)
Definition dict (pairs : list (string * string)) : gmap string string :=
  foldl (λ d kv, <[kv.1 := kv.2]> d) ∅ pairs.

(** ** [int(s)] *)

(** A Python [str] as its code points; [None] when the bytes are not
    the UTF-8 encoding of any [str]. *)
Fixpoint utf8_decode (s : string) : option (list N) :=
  match s with
  | "" => Some []
  | String c s1 =>
      if ord c <? 128 then cons (ord c) <$> utf8_decode s1
      else if ord c <? 194 then None
      else if ord c <? 224 then
        match s1 with
        | String c2 s2 =>
            if is_continuation c2
            then cons ((ord c - 192) * 64 + (ord c2 - 128)) <$> utf8_decode s2
            else None
        | _ => None
        end
      else if ord c <? 240 then
        match s1 with
        | String c2 (String c3 s3) =>
            if second_ok c c2 && is_continuation c3
            then cons ((ord c - 224) * 4096 + (ord c2 - 128) * 64
                       + (ord c3 - 128)) <$> utf8_decode s3
            else None
        | _ => None
        end
      else if ord c <? 245 then
        match s1 with
        | String c2 (String c3 (String c4 s4)) =>
            if second_ok c c2 && is_continuation c3 && is_continuation c4
            then cons ((ord c - 240) * 262144 + (ord c2 - 128) * 4096
                       + (ord c3 - 128) * 64 + (ord c4 - 128))
                   <$> utf8_decode s4
            else None
        | _ => None
        end
      else None
  end.

(** The code points of the digit zero of every decimal script of
    Unicode 14 ([unicodedata] of Python 3.11); the nine code points
    after each are its digits one to nine. *)
Definition unicode_zeros : list N :=
  [0x30; 0x660; 0x6f0; 0x7c0; 0x966; 0x9e6; 0xa66; 0xae6; 0xb66; 0xbe6;
   0xc66; 0xce6; 0xd66; 0xde6; 0xe50; 0xed0; 0xf20; 0x1040; 0x1090; 0x17e0;
   0x1810; 0x1946; 0x19d0; 0x1a80; 0x1a90; 0x1b50; 0x1bb0; 0x1c40; 0x1c50;
   0xa620; 0xa8d0; 0xa900; 0xa9d0; 0xa9f0; 0xaa50; 0xabf0; 0xff10; 0x104a0;
   0x10d30; 0x11066; 0x110f0; 0x11136; 0x111d0; 0x112f0; 0x11450; 0x114d0;
   0x11650; 0x116c0; 0x11730; 0x118e0; 0x11950; 0x11c50; 0x11d50; 0x11da0;
   0x16a60; 0x16ac0; 0x16b50; 0x1d7ce; 0x1d7d8; 0x1d7e2; 0x1d7ec; 0x1d7f6;
   0x1e140; 0x1e2f0; 0x1e950; 0x1fbf0].

(** [Py_UNICODE_TODECIMAL] *)
Definition to_decimal (cp : N) : option N :=
  match filter (λ z, (z <=? cp) && (cp <? z + 10) = true) unicode_zeros with
  | z :: _ => Some (cp - z)
  | [] => None
  end.

(** [Py_UNICODE_ISSPACE] above ASCII. *)
Definition unicode_spaces : list N :=
  [0x85; 0xa0; 0x1680; 0x2000; 0x2001; 0x2002; 0x2003; 0x2004; 0x2005;
   0x2006; 0x2007; 0x2008; 0x2009; 0x200a; 0x2028; 0x2029; 0x202f; 0x205f;
   0x3000].

(** [_PyUnicode_TransformDecimalAndSpaceToASCII]: an ASCII string is
    left alone; otherwise a space becomes [' '], a decimal digit its
    ASCII digit, and any other non-ASCII character ['?'], which no
    integer literal contains. *)
Definition transform_char (cp : N) : N :=
  if cp <? 127 then cp
  else if bool_decide (cp ∈ unicode_spaces) then 32
  else match to_decimal cp with
       | Some d => 48 + d
       | None => 63
       end.

Definition transform (cps : list N) : list N :=
  if forallb (λ cp, cp <? 128) cps then cps else map transform_char cps.

(** [Py_ISSPACE] *)
Definition is_c_space (n : N) : bool := (9 <=? n) && (n <=? 13) || (n =? 32).

Fixpoint skip_spaces (l : list N) : list N :=
  match l with
  | c :: l' => if is_c_space c then skip_spaces l' else l
  | [] => []
  end.

(** The scan over digits and underscores: the value, the number of
    digits and what follows; [None] on a doubled or trailing
    underscore. *)
Fixpoint scan_digits (prev_underscore : bool) (acc : Z) (digits : N)
    (l : list N) : option (Z * N * list N) :=
  match l with
  | c :: l' =>
      if (48 <=? c) && (c <=? 57)
      then scan_digits false (acc * 10 + Z.of_N (c - 48)) (digits + 1) l'
      else if c =? 95
      then (if prev_underscore then None else scan_digits true acc digits l')
      else if prev_underscore then None else Some (acc, digits, l)
  | [] => if prev_underscore then None else Some (acc, digits, [])
  end.

(** [sys.get_int_max_str_digits()], at its default. *)
Definition int_max_str_digits : N := 4300.

(** [int(s)]: [None] is [ValueError]. *)
Definition int_of_str (s : string) : option Z :=
  cps ← utf8_decode s;
  let l := skip_spaces (transform cps) in
  let '(sign, l) :=
    match l with
    | 43 :: l' => (1%Z, l')
    | 45 :: l' => ((-1)%Z, l')
    | _ => (1%Z, l)
    end in
  match l with
  | 95 :: _ => None
  | _ =>
      '(v, digits, rest) ← scan_digits false 0%Z 0 l;
      if (digits =? 0) || (int_max_str_digits <? digits) then None
      else match skip_spaces rest with
           | [] => Some (sign * v)%Z
           | _ => None
           end
  end.

(** The decimal digits of an [int], with [-] in front of a negative
    one: what [str(n)] returns when it returns. *)
Definition str_of_int (n : Z) : string := pretty n.

(** [str(n)] counts the decimal digits of [n], the sign left out, and
    refuses more than [int_max_str_digits] of them. *)
Definition str_digits_ok (n : Z) : bool :=
  N.of_nat (String.length (str_of_int (Z.abs n))) <=? int_max_str_digits.

(** [f'{n}'] for an [int]: formatting with an empty format is [str(n)];
    [None] is the [ValueError] of an integer with too many digits. *)
Definition format_int (n : Z) : option string :=
  if str_digits_ok n then Some (str_of_int n) else None.

(** ** [shlex.quote] *)

(** The characters [_find_unsafe] lets through: [\w@%+=:,./-] with
    [re.ASCII]. *)
Definition is_shell_safe (c : ascii) : bool :=
  is_lower c || is_upper c || is_digit c || Ascii.eqb c "_"
  || Ascii.eqb c "@" || Ascii.eqb c "%" || Ascii.eqb c "+" || Ascii.eqb c "="
  || Ascii.eqb c ":" || Ascii.eqb c "," || Ascii.eqb c "." || Ascii.eqb c "/"
  || Ascii.eqb c "-".

Definition shlex_quote (s : string) : string :=
  if String.eqb s "" then squote +:+ squote
  else if forallb_str is_shell_safe s then s
  else squote
       +:+ replace (chr 39) (squote +:+ dquote +:+ squote +:+ dquote +:+ squote) s
       +:+ squote.

(** ** The program *)

Definition PROTOCOL_NAME : string := "editor".

Definition Line : Type := Z.
Definition File : Type := string.

Definition notify (what : string) : M unit :=
  (* notify-send used as a user-facing means of error reporting *)
  run ["notify-send"; what];; mret tt.

Definition error (what : string) : M unit :=
  notify what;;
  raise (RuntimeError what).

Definition parse_uri (uri : string) : M (File * option Line) :=
  pr ← urlparse uri;
  (if negb (String.eqb (scheme pr) PROTOCOL_NAME)
   then error ("Unexpected protocol " +:+ uri)
   else mret tt);;
  let path := unquote (path pr) in
  match dict (parse_qsl (query pr)) !! "line" with
  | Some line_s =>
      match int_of_str line_s with
      | Some linenum => mret (path, Some linenum)
      | None => raise ValueError
      end
  | None =>
      match rsplit path ":" with
      | [spl0; spl1] =>
          match int_of_str spl1 with
          | Some linenum => mret (spl0, Some linenum)
          | None => mret (path, None)   (* presumably just a colon in filename *)
          end
      | _ => mret (path, None)
      end
  end.

(** [f'+{line}'] prints the line number as [str] does, and raises as it
    does. *)
Definition with_line (uri : File) (line : option Line) : M (list string) :=
  match line with
  | None => mret [uri]
  | Some line =>
      match format_int line with
      | Some s => mret ["+" +:+ s; uri]
      | None => raise ValueError
      end
  end.

Definition launch_in_terminal (cmd : list string) : M unit :=
  check_call ["x-terminal-emulator"; "-e"; join " " (map shlex_quote cmd)].

Definition open_vim (uri : File) (line : option Line) : M unit :=
  args ← with_line uri line;
  launch_in_terminal ("vim" :: args).

Definition open_gvim (uri : File) (line : option Line) : M unit :=
  args ← with_line uri line;
  check_call ("gvim" :: args).

Definition open_emacs (uri : File) (line : option Line) : M unit :=
  args ← with_line uri line;
  let cmd := ["emacsclient"; "--create-frame";
              "--alternate-editor=" +:+ dquote +:+ dquote] ++ args in
  check_call cmd.

(** The [for ... else] of [open_default]: the [else] arm runs when the
    list is exhausted without a [break]. *)
Fixpoint open_default_loop (uri : File) (line : option Line)
    (cmds : list string) : M unit :=
  match cmds with
  | open_cmd :: cmds' =>
      found ← shutil_which open_cmd;
      if found : bool then check_call [open_cmd; uri]
      else open_default_loop uri line cmds'
  | [] =>
      error "No xdg-open/open found, can't figure out default editor. Fallback to vim!";;
      open_vim uri line
  end.

Definition open_default (uri : File) (line : option Line) : M unit :=
  open_default_loop uri line ["xdg-open"; "open"].

Definition EDITORS : gmap string (File → option Line → M unit) :=
  list_to_map [("emacs", open_emacs); ("vim", open_vim);
               ("gvim", open_gvim); ("default", open_default)].

Definition open_editor (uri : string) (editor : string) : M unit :=
  '(uri, line) ← parse_uri uri;
  opener ← match EDITORS !! editor with
           | None =>
               notify ("Unexpected editor " +:+ editor +:+ "! Falling back to vim");;
               mret open_vim
           | Some opener => mret opener
           end;
  opener uri line.

(** The part of [parse_uri] that follows the scheme check, written as
    a function of what [urlparse] returned; [parse_uri_unfold] relates
    the two. *)
Definition parse_outcome (pr : ParseResult) : result (File * option Line) :=
  match dict (parse_qsl (query pr)) !! "line" with
  | Some line_s =>
      match int_of_str line_s with
      | Some linenum => Ok (unquote (path pr), Some linenum)
      | None => Raise ValueError
      end
  | None =>
      match rsplit (unquote (path pr)) ":" with
      | [spl0; spl1] =>
          match int_of_str spl1 with
          | Some linenum => Ok (spl0, Some linenum)
          | None => Ok (unquote (path pr), None)
          end
      | _ => Ok (unquote (path pr), None)
      end
  end.

(** ** Vocabulary of the specification *)

(** Every key occurrence of a query string with its value, blank values
    and fields without [=] included: what "the query string contains
    the key" says before any field is dropped. *)
Definition field_occurrence (name_value : string) : list (string * string) :=
  match split1 "=" name_value with
  | [n; v] => [(unquote (replace "+" " " n), unquote (replace "+" " " v))]
  | _ =>
      if String.eqb name_value "" then []
      else [(unquote (replace "+" " " name_value), "")]
  end.

Definition query_occurrences (qs : string) : list (string * string) :=
  concat (map field_occurrence (split "&" qs)).

(** The value of the last occurrence of [key] in the query string. *)
Definition last_occurrence (key qs : string) : option string :=
  snd <$> last (filter (λ kv, kv.1 = key) (query_occurrences qs)).

(** A path ends in [:<line>]: a last colon followed by an integer. *)
Definition has_line_suffix (p : string) : bool :=
  match rsplit p ":" with
  | [_; seg] => bool_decide (is_Some (int_of_str seg))
  | _ => false
  end.

(** Characters that mean nothing to [urlparse] and [unquote] inside a
    path: all but [?], [#], [%], tab, line feed and carriage return. *)
Definition is_plain_char (c : ascii) : bool :=
  negb (Ascii.eqb c "?" || Ascii.eqb c "#" || Ascii.eqb c "%"
        || Ascii.eqb c "009" || Ascii.eqb c "010" || Ascii.eqb c "013").

(** The scheme of a string as the program reads it,
    [urlparse(uri).scheme]; none when [urlparse] refuses the string. *)
Definition uri_scheme (env : Env) (uri : string) : option string :=
  match urlparse uri env with
  | (_, Ok pr) => Some (scheme pr)
  | (_, Raise _) => None
  end.


(** A line number that [str] can print: none, or one within the digit
    limit. *)
Definition line_printable (line : option Line) : Prop :=
  ∀ n, line = Some n → str_digits_ok n = true.

(** The argument list of the vim strategy in the words of the
    specification: the editor binary, then [+<line>] only when a line
    is present, then the path. *)
Definition spec_vim_argv (p : File) (line : option Line) : list string :=
  ["vim"] ++ option_list ((λ n, "+" +:+ str_of_int n) <$> line) ++ [p].

(** [runInTerminal(argv)] in the words of the specification: every
    argument shell-quoted, the quoted arguments joined by spaces, the
    joined line handed to the terminal emulator as its command. *)
Definition spec_run_in_terminal (argv : list string) : list string :=
  ["x-terminal-emulator"; "-e"; String.concat " " (shlex_quote <$> argv)].

(** ** The words of a shell command line *)

(** The words a POSIX shell cuts a command line into, by its quoting
    rules alone: blanks separate words, single quotes keep everything
    up to the next single quote, double quotes keep everything up to
    the next double quote, and quoted or unquoted pieces that touch
    make one word.  Outside quotes only the characters [shlex.quote]
    leaves bare are taken as they are; any other unquoted character, a
    [$], a backquote or a backslash inside double quotes, and an
    unclosed quote give [None]: the shell would expand, glob or reject
    there.

    Only the cutting into words is modelled.  What a shell does with a
    word because of its place is not: a reserved word such as [if] or
    an assignment such as [a=b] standing first is cut out as a word
    like any other, although a shell would not run it as a command. *)
Inductive sh_state : Type :=
  | ShBlank
  | ShWord (cur : string)
  | ShSingle (cur : string)
  | ShDouble (cur : string).

Definition is_sh_blank (c : ascii) : bool :=
  Ascii.eqb c " " || Ascii.eqb c "009" || Ascii.eqb c "010".

Fixpoint sh_split_go (st : sh_state) (s : string) : option (list string) :=
  match s with
  | "" =>
      match st with
      | ShBlank => Some []
      | ShWord cur => Some [cur]
      | ShSingle _ | ShDouble _ => None
      end
  | String c s' =>
      match st with
      | ShBlank =>
          if is_sh_blank c then sh_split_go ShBlank s'
          else if Ascii.eqb c (chr 39) then sh_split_go (ShSingle "") s'
          else if Ascii.eqb c (chr 34) then sh_split_go (ShDouble "") s'
          else if is_shell_safe c then sh_split_go (ShWord (String c "")) s'
          else None
      | ShWord cur =>
          if is_sh_blank c then cons cur <$> sh_split_go ShBlank s'
          else if Ascii.eqb c (chr 39) then sh_split_go (ShSingle cur) s'
          else if Ascii.eqb c (chr 34) then sh_split_go (ShDouble cur) s'
          else if is_shell_safe c
          then sh_split_go (ShWord (cur +:+ String c "")) s'
          else None
      | ShSingle cur =>
          if Ascii.eqb c (chr 39) then sh_split_go (ShWord cur) s'
          else sh_split_go (ShSingle (cur +:+ String c "")) s'
      | ShDouble cur =>
          if Ascii.eqb c (chr 34) then sh_split_go (ShWord cur) s'
          else if Ascii.eqb c "$" || Ascii.eqb c "`" || Ascii.eqb c "\"
          then None
          else sh_split_go (ShDouble (cur +:+ String c "")) s'
      end
  end.

Definition sh_split (s : string) : option (list string) :=
  sh_split_go ShBlank s.

(** ** Sample environments *)

(** A desktop where every program starts and exits with status 0, and
    [xdg-open] is on the path. *)
Definition desktop_env : Env := {|
  which := λ cmd, String.eqb cmd "xdg-open";
  spawn := λ _, Exited 0;
  bracketed_netloc_ok := λ _, true;
  nfkc_netloc_ok := λ _, true;
|}.

(** The same machine with neither [xdg-open] nor [open] installed. *)
Definition bare_env : Env := {|
  which := λ _, false;
  spawn := λ _, Exited 0;
  bracketed_netloc_ok := λ _, true;
  nfkc_netloc_ok := λ _, true;
|}.

(** A machine where every child starts and exits with status 1. *)
Definition failing_env : Env := {|
  which := λ _, true;
  spawn := λ _, Exited 1;
  bracketed_netloc_ok := λ _, true;
  nfkc_netloc_ok := λ _, true;
|}.

(** A machine without [notify-send]: starting it fails as a missing
    program does ([FileNotFoundError], errno 2); every other child
    starts and exits with status 0. *)
Definition silent_env : Env := {|
  which := λ _, true;
  spawn := λ cmd,
    match cmd with
    | "notify-send" :: _ => NotStarted (OSError 2)
    | _ => Exited 0
    end;
  bracketed_netloc_ok := λ _, true;
  nfkc_netloc_ok := λ _, true;
|}.

(** ** Vocabulary of the further properties *)

(** The last two steps of [urlsplit]: the fragment is cut at the first
    [#], then the query at the first [?]. *)
Definition split_fragment_query (url : string) : string * string * string :=
  let '(url, frag) :=
    match split_first "#" url with
    | Some (a, b) => (a, b)
    | None => (url, "")
    end in
  let '(url, qry) :=
    match split_first "?" url with
    | Some (a, b) => (a, b)
    | None => (url, "")
    end in
  (url, qry, frag).

(** The characters an authority can be made of once [urlsplit] has
    cut it out: ASCII, none of the delimiters [/], [?], [#], and none
    of the characters [urlsplit] removes. *)
Definition is_host_char (c : ascii) : bool :=
  is_ascii c &&
  negb (Ascii.eqb c "/" || Ascii.eqb c "?" || Ascii.eqb c "#"
        || Ascii.eqb c "009" || Ascii.eqb c "010" || Ascii.eqb c "013").

(** * Properties *)

Ltac unfold_M :=
  unfold mbind, mret, M_bind, M_ret, M_bind_def, M_ret_def, raise in *.

(** ** Strings *)

Lemma app_String (c : ascii) (a b : string) :
  String c a +:+ b = String c (a +:+ b).
Proof. reflexivity. Qed.

Lemma app_empty_l (s : string) : "" +:+ s = s.
Proof. reflexivity. Qed.

Lemma split_last_None (c : ascii) (s : string) :
  contains c s = false → split_last c s = None.
Proof.
  induction s as [|d s IH]; simpl; [done|].
  intros [Hd Hs]%orb_false_iff.
  by rewrite IH, Hd.
Qed.

Lemma split_last_app (c : ascii) (l r : string) :
  contains c r = false → split_last c (l +:+ String c r) = Some (l, r).
Proof.
  intros Hr. induction l as [|d l IH].
  - rewrite app_empty_l. simpl.
    by rewrite (split_last_None _ _ Hr), Ascii.eqb_refl.
  - rewrite app_String. simpl. by rewrite IH.
Qed.

Lemma split_last_Some (c : ascii) (s a b : string) :
  split_last c s = Some (a, b) →
  s = a +:+ String c b ∧ contains c b = false.
Proof.
  revert a. induction s as [|d s IH]; simpl; intros a; [done|].
  destruct (split_last c s) as [[a' b']|] eqn:Hs.
  - intros [= <- <-]. destruct (IH _ eq_refl) as [-> ?].
    by rewrite app_String.
  - destruct (Ascii.eqb d c) eqn:Hd; [|done].
    intros [= <- <-]. apply Ascii.eqb_eq in Hd as ->.
    split; [done|].
    clear IH. induction s as [|e s IH]; simpl in *; [done|].
    destruct (split_last c s) as [[??]|]; [done|].
    destruct (Ascii.eqb e c); [done|]. by rewrite IH.
Qed.

Lemma split_first_None (c : ascii) (s : string) :
  contains c s = false → split_first c s = None.
Proof.
  induction s as [|d s IH]; simpl; [done|].
  intros [Hd Hs]%orb_false_iff.
  by rewrite Hd, IH.
Qed.

Lemma split_first_app (c : ascii) (l r : string) :
  contains c l = false → split_first c (l +:+ String c r) = Some (l, r).
Proof.
  induction l as [|d l IH]; cbn [contains].
  - intros _. rewrite app_empty_l. simpl. by rewrite Ascii.eqb_refl.
  - intros [Hd Hl]%orb_false_iff. rewrite app_String. simpl.
    by rewrite Hd, IH.
Qed.

Lemma replace_absent (c : ascii) (new s : string) :
  contains c s = false → replace c new s = s.
Proof.
  induction s as [|d s IH]; simpl; [done|].
  intros [Hd Hs]%orb_false_iff.
  by rewrite Hd, IH.
Qed.

Lemma plain_contains (c : ascii) (s : string) :
  is_plain_char c = false →
  forallb_str is_plain_char s = true → contains c s = false.
Proof.
  intros Hc. induction s as [|d s IH]; simpl; [done|].
  intros [Hd Hs]%andb_true_iff. rewrite IH by done.
  destruct (Ascii.eqb d c) eqn:E; [|done].
  apply Ascii.eqb_eq in E as ->. congruence.
Qed.

Lemma rsplit_app (l r : string) :
  contains ":" r = false → rsplit (l +:+ ":" +:+ r) ":" = [l; r].
Proof.
  intros Hr. unfold rsplit.
  change (":" +:+ r) with (String ":" r).
  by rewrite split_last_app.
Qed.

Lemma rsplit_no_colon (s : string) :
  contains ":" s = false → rsplit s ":" = [s].
Proof. intros Hs. unfold rsplit. by rewrite split_last_None. Qed.

(** ** The monad *)

Lemma bind_eq {A B : Type} (m : M A) (k : A → M B) (env : Env) :
  (m ≫= k) env =
    match m env with
    | (l1, Ok a) => ((l1 ++ (k a env).1), (k a env).2)
    | (l1, Raise e) => (l1, Raise e)
    end.
Proof.
  unfold_M. destruct (m env) as [l1 [a|e]]; [|done]. by destruct (k a env).
Qed.

Lemma ret_eq {A : Type} (a : A) (env : Env) :
  (mret a : M A) env = ([], Ok a).
Proof. reflexivity. Qed.

(** ** Reporting errors *)

Lemma notify_eq (what : string) (env : Env) :
  notify what env =
    ([["notify-send"; what]],
     match spawn env ["notify-send"; what] with
     | Exited _ => Ok tt
     | NotStarted e => Raise e
     end).
Proof.
  unfold notify, run. unfold_M.
  by destruct (spawn env _).
Qed.

(** [error] never returns: whatever the notification does, the call
    ends in an exception. *)
Lemma error_eq (what : string) (env : Env) :
  error what env =
    ([["notify-send"; what]],
     Raise match spawn env ["notify-send"; what] with
           | Exited _ => RuntimeError what
           | NotStarted e => e
           end).
Proof.
  unfold error. rewrite bind_eq, notify_eq.
  by destruct (spawn env _).
Qed.

(** ** The query as a dictionary *)

Lemma dict_snoc (pairs : list (string * string)) (kv : string * string) :
  dict (pairs ++ [kv]) = <[kv.1 := kv.2]> (dict pairs).
Proof. unfold dict. by rewrite foldl_app. Qed.

Lemma dict_lookup_None (pairs : list (string * string)) (k : string) :
  dict pairs !! k = None ↔ k ∉ pairs.*1.
Proof.
  induction pairs as [|kv pairs IH] using rev_ind.
  - split; [intros _; apply not_elem_of_nil | done].
  - rewrite dict_snoc, lookup_insert_None, IH, fmap_app, not_elem_of_app.
    simpl. rewrite list_elem_of_singleton.
    split; intros [??]; split; auto.
Qed.

Lemma dict_lookup_Some (pairs : list (string * string)) (k v : string) :
  dict pairs !! k = Some v → (k, v) ∈ pairs.
Proof.
  induction pairs as [|kv pairs IH] using rev_ind; [done|].
  rewrite dict_snoc, lookup_insert_Some, elem_of_app, list_elem_of_singleton.
  destruct kv as [k' v']. simpl.
  intros [[-> ->]|[_ Hd]]; [by right | left; auto].
Qed.

(** A key that occurs in the pairs is found, with one of its values. *)
Lemma dict_lookup_elem (pairs : list (string * string)) (k v : string) :
  (k, v) ∈ pairs → ∃ v', (k, v') ∈ pairs ∧ dict pairs !! k = Some v'.
Proof.
  intros Hin. destruct (dict pairs !! k) as [v'|] eqn:Hd.
  - exists v'. eauto using dict_lookup_Some.
  - apply dict_lookup_None in Hd. destruct Hd.
    apply list_elem_of_fmap. by exists (k, v).
Qed.

Lemma dict_lookup_skip (pairs : list (string * string))
    (d : gmap string string) (k : string) :
  (∀ kv, kv ∈ pairs → kv.1 ≠ k) →
  foldl (λ d kv, <[kv.1 := kv.2]> d) d pairs !! k = d !! k.
Proof.
  revert d. induction pairs as [|kv pairs IH]; intros d Hk; simpl; [done|].
  rewrite IH.
  - apply lookup_insert_ne, Hk. by left.
  - intros kv' ?. apply Hk. by right.
Qed.

(** [dict] keeps, for each key, the value of its last pair. *)
Lemma dict_lookup_last (l1 l2 : list (string * string)) (k v : string) :
  (∀ kv, kv ∈ l2 → kv.1 ≠ k) →
  dict (l1 ++ [(k, v)] ++ l2) !! k = Some v.
Proof.
  intros Hk. unfold dict. rewrite foldl_app. simpl.
  rewrite dict_lookup_skip by done. apply lookup_insert_eq.
Qed.

(** A field [name=] with nothing after the [=] gives no pair. *)
Lemma parse_field_blank (name : string) :
  contains "=" name = false → parse_field (name +:+ "=") = [].
Proof.
  intros Hn. unfold parse_field, split1.
  change (name +:+ "=") with (name +:+ String "=" "").
  by rewrite split_first_app.
Qed.

(** ** The parser *)

Lemma urlparse_log (uri : string) (env : Env) : (urlparse uri env).1 = [].
Proof.
  unfold urlparse.
  destruct (urlsplit env uri) as [[[[[sch nl] url] qry] frag]|]; [|done].
  by destruct (if _ && _ then splitparams url else (url, "")).
Qed.

Lemma parse_uri_unfold (env : Env) (uri : string) (pr : ParseResult) :
  urlparse uri env = ([], Ok pr) →
  parse_uri uri env =
    if String.eqb (scheme pr) PROTOCOL_NAME then ([], parse_outcome pr)
    else ((error ("Unexpected protocol " +:+ uri) env).1,
         match (error ("Unexpected protocol " +:+ uri) env).2 with
         | Ok _ => parse_outcome pr
         | Raise e => Raise e
         end).
Proof.
  intros Hpr. unfold parse_uri, parse_outcome. rewrite bind_eq, Hpr, bind_eq.
  destruct (String.eqb (scheme pr) PROTOCOL_NAME); simpl.
  - destruct (dict _ !! "line") as [line_s|].
    + by destruct (int_of_str line_s).
    + destruct (rsplit _ _) as [|spl0 [|spl1 [|??]]]; try done.
      by destruct (int_of_str spl1).
  - by rewrite error_eq.
Qed.

Lemma parse_uri_accepted (env : Env) (uri : string) (pr : ParseResult) :
  urlparse uri env = ([], Ok pr) →
  scheme pr = PROTOCOL_NAME →
  parse_uri uri env = ([], parse_outcome pr).
Proof.
  intros Hpr Hs. rewrite (parse_uri_unfold _ _ _ Hpr), Hs. done.
Qed.

(** A returned target comes from a URI that [urlparse] accepted and
    whose scheme is the expected one. *)
Lemma parse_uri_Ok_inv (env : Env) (uri : string) log (t : File * option Line) :
  parse_uri uri env = (log, Ok t) →
  log = [] ∧
  ∃ pr, urlparse uri env = ([], Ok pr) ∧ scheme pr = PROTOCOL_NAME
        ∧ parse_outcome pr = Ok t.
Proof.
  intros H.
  destruct (urlparse uri env) as [l [pr|e]] eqn:Hpr.
  - pose proof (urlparse_log uri env) as Hl. rewrite Hpr in Hl. simpl in Hl.
    subst l. rewrite (parse_uri_unfold _ _ _ Hpr) in H.
    destruct (String.eqb (scheme pr) PROTOCOL_NAME) eqn:Hs.
    + apply String.eqb_eq in Hs. injection H as <- Ht. eauto.
    + by rewrite error_eq in H.
  - unfold parse_uri in H. by rewrite bind_eq, Hpr in H.
Qed.

(** A URI that [urlparse] itself refuses is refused by [parse_uri],
    with the same exception and without a notification. *)
Lemma parse_uri_urlparse_raises (env : Env) (uri : string) (e : exn) :
  urlparse uri env = ([], Raise e) → parse_uri uri env = ([], Raise e).
Proof. intros Hpr. unfold parse_uri. by rewrite bind_eq, Hpr. Qed.

(** The assertions of the program's own [test_parse_uri]. *)
Lemma test_parse_uri :
  parse_uri "editor:///path/to/file" desktop_env
    = ([], Ok ("/path/to/file", None))
  ∧ parse_uri "editor:///path/with spaces" desktop_env
    = ([], Ok ("/path/with spaces", None))
  ∧ parse_uri "editor:///path/url%20encoded" desktop_env
    = ([], Ok ("/path/url encoded", None))
  ∧ parse_uri "editor:///path/to/file:10" desktop_env
    = ([], Ok ("/path/to/file", Some 10%Z))
  ∧ parse_uri "editor:///path/to/file?line=10" desktop_env
    = ([], Ok ("/path/to/file", Some 10%Z))
  ∧ parse_uri "editor:///path/to/file:oops/and:more" desktop_env
    = ([], Ok ("/path/to/file:oops/and:more", None))
  ∧ (parse_uri "badmime://whatever" desktop_env).2
    = Raise (RuntimeError "Unexpected protocol badmime://whatever").
Proof. by vm_compute. Qed.

(** ** Scheme check *)

(** C6, as stated, fails.  On a machine where [notify-send] cannot be
    started, a foreign scheme ends in the exception of that failed
    start, not in the "Unexpected protocol" error; and a string that
    [urlparse] refuses ends in its [ValueError] before the scheme is
    looked at, without a notification. *)
Lemma foreign_scheme_other_errors :
  uri_scheme silent_env "badmime://whatever" = Some "badmime"
  ∧ parse_uri "badmime://whatever" silent_env
    = ([["notify-send"; "Unexpected protocol badmime://whatever"]],
       Raise (OSError 2))
  ∧ uri_scheme desktop_env "badmime://[x/y" = None
  ∧ parse_uri "badmime://[x/y" desktop_env = ([], Raise ValueError).
Proof. by vm_compute. Qed.

(** C6, amended. A string that the program does not read with the
    scheme [editor] gives no target: [parse_uri] raises.  When
    [urlparse] accepts the string, the one child is the notification,
    and the exception is the [RuntimeError] "Unexpected protocol ..."
    if [notify-send] could be started, whatever its exit status, and
    the exception of the failed start if it could not.  When [urlparse]
    refuses the string, nothing is spawned and the exception is its
    [ValueError]. *)
Theorem parse_uri_invalid_scheme (env : Env) (uri : string) :
  uri_scheme env uri ≠ Some PROTOCOL_NAME →
  parse_uri uri env =
    match uri_scheme env uri with
    | Some _ =>
        ([["notify-send"; "Unexpected protocol " +:+ uri]],
         Raise match spawn env ["notify-send"; "Unexpected protocol " +:+ uri] with
               | Exited _ => RuntimeError ("Unexpected protocol " +:+ uri)
               | NotStarted e => e
               end)
    | None => ([], Raise ValueError)
    end.
Proof.
  unfold uri_scheme. intros Hs.
  destruct (urlparse uri env) as [l [pr|e]] eqn:Hpr.
  - pose proof (urlparse_log uri env) as Hl. rewrite Hpr in Hl. simpl in Hl.
    subst l. rewrite (parse_uri_unfold _ _ _ Hpr).
    destruct (String.eqb (scheme pr) PROTOCOL_NAME) eqn:Heq.
    + apply String.eqb_eq in Heq. by rewrite Heq in Hs.
    + by rewrite error_eq.
  - assert (l = [] ∧ e = ValueError) as [-> ->].
    { unfold urlparse in Hpr.
      destruct (urlsplit env uri) as [[[[[sch nl] url] qry] frag]|].
      - by destruct (if _ && _ then splitparams url else (url, "")).
      - by injection Hpr as <- <-. }
    by apply parse_uri_urlparse_raises.
Qed.

Lemma parse_uri_invalid_scheme_witness :
  uri_scheme desktop_env "badmime://whatever" ≠ Some PROTOCOL_NAME
  ∧ parse_uri "badmime://whatever" desktop_env
    = ([["notify-send"; "Unexpected protocol badmime://whatever"]],
       Raise (RuntimeError "Unexpected protocol badmime://whatever")).
Proof.
  assert (H : uri_scheme desktop_env "badmime://whatever" ≠ Some PROTOCOL_NAME)
    by (vm_compute; discriminate).
  exact (conj H (parse_uri_invalid_scheme desktop_env "badmime://whatever" H)).
Defined.

(** ** The line number from the query *)

(** C2, as stated, fails on a [line] key whose value is blank:
    [parse_qsl] drops the field, the lookup finds no [line], and the
    trailing-colon form is read after all, so the path is divided. *)
Lemma blank_line_key_is_ignored :
  urlparse "editor:///f:10?line=" desktop_env
    = ([], Ok {| scheme := "editor"; netloc := ""; path := "/f:10";
                 params := ""; query := "line="; fragment := "" |})
  ∧ query_occurrences "line=" = [("line", "")]
  ∧ unquote "/f:10" = "/f:10"
  ∧ parse_uri "editor:///f:10?line=" desktop_env = ([], Ok ("/f", Some 10%Z)).
Proof. by vm_compute. Qed.

(** C2, amended. When the query holds a [line] key with a non-empty
    value (a pair of [parse_qsl]), the value of such a pair, read as
    an integer, is the line number and the decoded path is returned
    whole, its own colons untouched; a value that is not an integer
    makes the parse fail with [ValueError]. *)
Theorem parse_uri_query_line (env : Env) (uri : string) (pr : ParseResult)
    (v : string) :
  urlparse uri env = ([], Ok pr) →
  scheme pr = PROTOCOL_NAME →
  ("line", v) ∈ parse_qsl (query pr) →
  ∃ line_s, ("line", line_s) ∈ parse_qsl (query pr) ∧
    parse_uri uri env =
      ([], match int_of_str line_s with
           | Some linenum => Ok (unquote (path pr), Some linenum)
           | None => Raise ValueError
           end).
Proof.
  intros Hpr Hs (line_s & Hin & Hline)%dict_lookup_elem.
  exists line_s. split; [done|].
  rewrite (parse_uri_accepted _ _ _ Hpr Hs).
  unfold parse_outcome. by rewrite Hline.
Qed.

Lemma parse_uri_query_line_witness :
  urlparse "editor:///path/to/file:7?line=10" desktop_env
    = ([], Ok {| scheme := "editor"; netloc := ""; path := "/path/to/file:7";
                 params := ""; query := "line=10"; fragment := "" |})
  ∧ "editor" = PROTOCOL_NAME
  ∧ ("line", "10") ∈ parse_qsl "line=10"
  ∧ ∃ line_s, ("line", line_s) ∈ parse_qsl "line=10" ∧
      parse_uri "editor:///path/to/file:7?line=10" desktop_env =
        ([], match int_of_str line_s with
             | Some linenum => Ok ("/path/to/file:7", Some linenum)
             | None => Raise ValueError
             end).
Proof.
  assert (H1 : urlparse "editor:///path/to/file:7?line=10" desktop_env
    = ([], Ok {| scheme := "editor"; netloc := ""; path := "/path/to/file:7";
                 params := ""; query := "line=10"; fragment := "" |}))
    by reflexivity.
  assert (H2 : "editor" = PROTOCOL_NAME) by reflexivity.
  assert (H3 : ("line", "10") ∈ parse_qsl "line=10")
    by (vm_compute; left).
  exact (conj H1 (conj H2 (conj H3
    (parse_uri_query_line desktop_env "editor:///path/to/file:7?line=10"
       _ "10" H1 H2 H3)))).
Defined.

(** C9, as stated, fails when the last [line] key of the query string
    has a blank value: the field is dropped before the pairs are
    collapsed, and an earlier value is used. *)
Lemma blank_last_line_is_skipped :
  urlparse "editor:///f?line=5&line=" desktop_env
    = ([], Ok {| scheme := "editor"; netloc := ""; path := "/f";
                 params := ""; query := "line=5&line="; fragment := "" |})
  ∧ query_occurrences "line=5&line=" = [("line", "5"); ("line", "")]
  ∧ last_occurrence "line" "line=5&line=" = Some ""
  ∧ parse_uri "editor:///f?line=5&line=" desktop_env = ([], Ok ("/f", Some 5%Z)).
Proof. by vm_compute. Qed.

(** C9, amended. Among the query fields with a non-empty value (the
    pairs [parse_qsl] returns), the last one whose key is [line] gives
    the line number. *)
Theorem parse_uri_last_line_wins (env : Env) (uri : string) (pr : ParseResult)
    (l1 l2 : list (string * string)) (line_s : string) :
  urlparse uri env = ([], Ok pr) →
  scheme pr = PROTOCOL_NAME →
  parse_qsl (query pr) = l1 ++ [("line", line_s)] ++ l2 →
  (∀ kv, kv ∈ l2 → kv.1 ≠ "line") →
  parse_uri uri env =
    ([], match int_of_str line_s with
         | Some linenum => Ok (unquote (path pr), Some linenum)
         | None => Raise ValueError
         end).
Proof.
  intros Hpr Hs Hq Hl2. rewrite (parse_uri_accepted _ _ _ Hpr Hs).
  unfold parse_outcome. by rewrite Hq, dict_lookup_last.
Qed.

Lemma parse_uri_last_line_wins_witness :
  urlparse "editor:///f?line=5&col=2&line=7&x=1" desktop_env
    = ([], Ok {| scheme := "editor"; netloc := ""; path := "/f"; params := "";
                 query := "line=5&col=2&line=7&x=1"; fragment := "" |})
  ∧ "editor" = PROTOCOL_NAME
  ∧ parse_qsl "line=5&col=2&line=7&x=1"
    = [("line", "5"); ("col", "2")] ++ [("line", "7")] ++ [("x", "1")]
  ∧ (∀ kv : string * string, kv ∈ [("x", "1")] → kv.1 ≠ "line")
  ∧ parse_uri "editor:///f?line=5&col=2&line=7&x=1" desktop_env
    = ([], Ok ("/f", Some 7%Z)).
Proof.
  assert (H1 : urlparse "editor:///f?line=5&col=2&line=7&x=1" desktop_env
    = ([], Ok {| scheme := "editor"; netloc := ""; path := "/f"; params := "";
                 query := "line=5&col=2&line=7&x=1"; fragment := "" |}))
    by reflexivity.
  assert (H2 : "editor" = PROTOCOL_NAME) by reflexivity.
  assert (H3 : parse_qsl "line=5&col=2&line=7&x=1"
    = [("line", "5"); ("col", "2")] ++ [("line", "7")] ++ [("x", "1")])
    by reflexivity.
  assert (H4 : ∀ kv : string * string, kv ∈ [("x", "1")] → kv.1 ≠ "line")
    by (intros kv ->%list_elem_of_singleton; discriminate).
  exact (conj H1 (conj H2 (conj H3 (conj H4
    (parse_uri_last_line_wins desktop_env
       "editor:///f?line=5&col=2&line=7&x=1" _ _ _ "7" H1 H2 H3 H4))))).
Defined.

(** ** The line number from the path *)

(** C5. Without a [line] key among the query pairs, [parse_uri] looks
    at the last colon of the decoded path and at nothing else: a path
    without a colon is returned whole; for a path [l:r] with no colon
    in [r], the target is [(l, int(r))] when [r] is an integer, and the
    whole decoded path with no line number when it is not, whatever
    colons [l] contains. *)
Theorem parse_uri_last_colon (env : Env) (uri : string) (pr : ParseResult) :
  urlparse uri env = ([], Ok pr) →
  scheme pr = PROTOCOL_NAME →
  "line" ∉ (parse_qsl (query pr)).*1 →
  (contains ":" (unquote (path pr)) = false →
   parse_uri uri env = ([], Ok (unquote (path pr), None)))
  ∧ (∀ l r : string,
       unquote (path pr) = l +:+ ":" +:+ r →
       contains ":" r = false →
       parse_uri uri env =
         ([], Ok match int_of_str r with
                 | Some linenum => (l, Some linenum)
                 | None => (l +:+ ":" +:+ r, None)
                 end)).
Proof.
  intros Hpr Hs Hline%dict_lookup_None.
  rewrite (parse_uri_accepted _ _ _ Hpr Hs).
  unfold parse_outcome. rewrite Hline. split.
  - intros Hc. by rewrite rsplit_no_colon.
  - intros l r -> Hr. rewrite rsplit_app by done.
    by destruct (int_of_str r).
Qed.

Lemma parse_uri_last_colon_witness :
  urlparse "editor:///path/to/file:oops/and:more?col=3" desktop_env
    = ([], Ok {| scheme := "editor"; netloc := "";
                 path := "/path/to/file:oops/and:more";
                 params := ""; query := "col=3"; fragment := "" |})
  ∧ "editor" = PROTOCOL_NAME
  ∧ ("line" ∉ (parse_qsl "col=3").*1)
  ∧ unquote "/path/to/file:oops/and:more"
    = "/path/to/file:oops/and" +:+ ":" +:+ "more"
  ∧ contains ":" "more" = false
  ∧ parse_uri "editor:///path/to/file:oops/and:more?col=3" desktop_env
    = ([], Ok ("/path/to/file:oops/and:more", None)).
Proof.
  assert (H1 : urlparse "editor:///path/to/file:oops/and:more?col=3" desktop_env
    = ([], Ok {| scheme := "editor"; netloc := "";
                 path := "/path/to/file:oops/and:more";
                 params := ""; query := "col=3"; fragment := "" |}))
    by reflexivity.
  assert (H2 : "editor" = PROTOCOL_NAME) by reflexivity.
  assert (H3 : "line" ∉ (parse_qsl "col=3").*1)
    by (apply (bool_decide_unpack _); vm_compute; exact I).
  assert (H4 : unquote "/path/to/file:oops/and:more"
    = "/path/to/file:oops/and" +:+ ":" +:+ "more") by reflexivity.
  assert (H5 : contains ":" "more" = false) by reflexivity.
  exact (conj H1 (conj H2 (conj H3 (conj H4 (conj H5
    (proj2 (parse_uri_last_colon desktop_env
              "editor:///path/to/file:oops/and:more?col=3" _ H1 H2 H3)
       "/path/to/file:oops/and" "more" H4 H5)))))).
Defined.

(** C10. Without a [line] key among the query pairs, a decoded path
    that ends in a colon is returned as it is, the colon included, with
    no line number. *)
Theorem parse_uri_trailing_colon (env : Env) (uri : string) (pr : ParseResult)
    (l : string) :
  urlparse uri env = ([], Ok pr) →
  scheme pr = PROTOCOL_NAME →
  "line" ∉ (parse_qsl (query pr)).*1 →
  unquote (path pr) = l +:+ ":" →
  parse_uri uri env = ([], Ok (l +:+ ":", None)).
Proof.
  intros Hpr Hs Hline%dict_lookup_None Hp.
  rewrite (parse_uri_accepted _ _ _ Hpr Hs).
  unfold parse_outcome. rewrite Hline, Hp.
  change (l +:+ ":") with (l +:+ ":" +:+ "").
  by rewrite rsplit_app.
Qed.

Lemma parse_uri_trailing_colon_witness :
  urlparse "editor:///path/to/file:" desktop_env
    = ([], Ok {| scheme := "editor"; netloc := ""; path := "/path/to/file:";
                 params := ""; query := ""; fragment := "" |})
  ∧ "editor" = PROTOCOL_NAME
  ∧ ("line" ∉ (parse_qsl "").*1)
  ∧ unquote "/path/to/file:" = "/path/to/file" +:+ ":"
  ∧ parse_uri "editor:///path/to/file:" desktop_env
    = ([], Ok ("/path/to/file:", None)).
Proof.
  assert (H1 : urlparse "editor:///path/to/file:" desktop_env
    = ([], Ok {| scheme := "editor"; netloc := ""; path := "/path/to/file:";
                 params := ""; query := ""; fragment := "" |}))
    by reflexivity.
  assert (H2 : "editor" = PROTOCOL_NAME) by reflexivity.
  assert (H3 : "line" ∉ (parse_qsl "").*1)
    by (apply (bool_decide_unpack _); vm_compute; exact I).
  assert (H4 : unquote "/path/to/file:" = "/path/to/file" +:+ ":")
    by reflexivity.
  exact (conj H1 (conj H2 (conj H3 (conj H4
    (parse_uri_trailing_colon desktop_env "editor:///path/to/file:" _
       "/path/to/file" H1 H2 H3 H4))))).
Defined.

(** ** The returned target *)

(** C3, as stated, fails: one colon segment is removed and no more,
    and none at all when the line comes from the query, so the
    returned path can still end in [:<line>]. *)
Lemma returned_path_keeps_line_suffix :
  parse_uri "editor:///a:5?line=5" desktop_env = ([], Ok ("/a:5", Some 5%Z))
  ∧ parse_uri "editor:///a:2:2" desktop_env = ([], Ok ("/a:2", Some 2%Z))
  ∧ has_line_suffix "/a:5" = true
  ∧ has_line_suffix "/a:2" = true
  ∧ "/a:5" = "/a" +:+ ":" +:+ str_of_int 5
  ∧ "/a:2" = "/a" +:+ ":" +:+ str_of_int 2.
Proof. by vm_compute. Qed.

(** C3, amended. The returned path is the percent-decoded path
    component: whole when there is no line number or when the line
    number comes from the [line] key of the query, and with exactly its
    last colon segment, an integer equal to the line, taken off when the
    line number comes from the trailing-colon form. *)
Theorem parse_uri_target_shape (env : Env) (uri : string)
    (log : list (list string)) (p : File) (line : option Line) :
  parse_uri uri env = (log, Ok (p, line)) →
  ∃ pr, urlparse uri env = ([], Ok pr) ∧ scheme pr = PROTOCOL_NAME ∧
    match line with
    | None => p = unquote (path pr)
    | Some n =>
        (∃ line_s, ("line", line_s) ∈ parse_qsl (query pr)
                   ∧ int_of_str line_s = Some n ∧ p = unquote (path pr))
        ∨ (("line" ∉ (parse_qsl (query pr)).*1)
           ∧ ∃ seg, unquote (path pr) = p +:+ ":" +:+ seg
                    ∧ contains ":" seg = false ∧ int_of_str seg = Some n)
    end.
Proof.
  intros (-> & pr & Hpr & Hs & Hout)%parse_uri_Ok_inv.
  exists pr. split; [done|]. split; [done|].
  unfold parse_outcome in Hout.
  destruct (dict _ !! "line") as [line_s|] eqn:Hline.
  - destruct (int_of_str line_s) as [n|] eqn:Hn; [|done].
    injection Hout as <- <-. left. exists line_s.
    eauto using dict_lookup_Some.
  - apply dict_lookup_None in Hline. unfold rsplit in Hout.
    destruct (split_last ":" (unquote (path pr))) as [[a b]|] eqn:Hsp.
    + apply split_last_Some in Hsp as [Hab Hb].
      destruct (int_of_str b) as [n|] eqn:Hn.
      * injection Hout as <- <-. right. split; [done|]. by exists b.
      * by injection Hout as <- <-.
    + by injection Hout as <- <-.
Qed.

Lemma parse_uri_target_shape_witness :
  parse_uri "editor:///path/to/file:10" desktop_env
    = ([], Ok ("/path/to/file", Some 10%Z))
  ∧ ∃ pr, urlparse "editor:///path/to/file:10" desktop_env = ([], Ok pr)
      ∧ scheme pr = PROTOCOL_NAME ∧
      ((∃ line_s, ("line", line_s) ∈ parse_qsl (query pr)
                  ∧ int_of_str line_s = Some 10%Z
                  ∧ "/path/to/file" = unquote (path pr))
       ∨ (("line" ∉ (parse_qsl (query pr)).*1)
          ∧ ∃ seg, unquote (path pr) = "/path/to/file" +:+ ":" +:+ seg
                   ∧ contains ":" seg = false ∧ int_of_str seg = Some 10%Z)).
Proof.
  assert (H1 : parse_uri "editor:///path/to/file:10" desktop_env
    = ([], Ok ("/path/to/file", Some 10%Z))) by (vm_compute; reflexivity).
  exact (conj H1
    (parse_uri_target_shape desktop_env "editor:///path/to/file:10" []
       "/path/to/file" (Some 10%Z) H1)).
Defined.

(** ** Parsing a returned path again *)

Lemma remove_unsafe_plain (s : string) :
  forallb_str is_plain_char s = true → remove_unsafe s = s.
Proof.
  intros Hs. unfold remove_unsafe.
  rewrite (replace_absent "009" "" s) by (by apply plain_contains).
  rewrite (replace_absent "013" "" s) by (by apply plain_contains).
  by rewrite (replace_absent "010" "" s) by (by apply plain_contains).
Qed.

Lemma editor_not_in_uses_params :
  bool_decide ("editor" ∈ uses_params) = false.
Proof. by vm_compute. Qed.


Lemma unquote_plain (s : string) :
  forallb_str is_plain_char s = true → unquote s = s.
Proof.
  intros Hs. unfold unquote.
  by rewrite (plain_contains "%" s).
Qed.


(** With the line number taken from the query, the decoded path is
    returned whole, and a colon segment it ends in is read as a line
    number the second time. *)
Lemma reparse_after_query_line :
  parse_uri "editor:///a:5?line=7" desktop_env = ([], Ok ("/a:5", Some 7%Z))
  ∧ parse_uri ("editor://" +:+ "/a:5") desktop_env = ([], Ok ("/a", Some 5%Z)).
Proof. by vm_compute. Qed.

(** Returned paths that hold a percent sign, a question mark or a hash
    sign are read differently the second time, even when they do not
    end in a colon and an integer. *)
Lemma reparse_reads_special_characters :
  (parse_uri "editor:///a%253A5" desktop_env = ([], Ok ("/a%3A5", None))
   ∧ parse_uri ("editor://" +:+ "/a%3A5") desktop_env
     = ([], Ok ("/a", Some 5%Z)))
  ∧ (parse_uri "editor:///a%3Fline=3" desktop_env
       = ([], Ok ("/a?line=3", None))
     ∧ parse_uri ("editor://" +:+ "/a?line=3") desktop_env
       = ([], Ok ("/a", Some 3%Z)))
  ∧ (parse_uri "editor:///a:5%23x" desktop_env = ([], Ok ("/a:5#x", None))
     ∧ parse_uri ("editor://" +:+ "/a:5#x") desktop_env
       = ([], Ok ("/a", Some 5%Z))).
Proof. by vm_compute. Qed.





(** ** Printing a line number *)

Lemma pretty_N_go_length_le (d : nat) (x : N) (s : string) :
  x < 10 ^ N.of_nat d →
  (String.length (pretty_N_go x s) ≤ String.length s + d)%nat.
Proof.
  revert x s. induction d as [|d IH]; intros x s Hx.
  - assert (x = 0) as -> by (simpl in Hx; lia). rewrite pretty_N_go_0. lia.
  - destruct (decide (x = 0)) as [->|Hx0]; [rewrite pretty_N_go_0; lia|].
    rewrite pretty_N_go_step by lia.
    etrans; [apply IH|simpl; lia].
    rewrite Nat2N.inj_succ, N.pow_succ_r' in Hx.
    apply N.Div0.div_lt_upper_bound. lia.
Qed.



Lemma str_of_int_length_le (v : Z) (d : N) :
  (0 ≤ v < 10 ^ Z.of_N d)%Z → 1 ≤ d →
  N.of_nat (String.length (str_of_int v)) ≤ d.
Proof.
  intros [Hv0 Hv] Hd. destruct v as [|x|x]; [simpl; lia| |lia].
  change (str_of_int (Z.pos x)) with (pretty_N_go (N.pos x) "").
  pose proof (pretty_N_go_length_le (N.to_nat d) (N.pos x) "") as H.
  rewrite N2Nat.id in H. cbn [String.length] in H.
  enough (N.pos x < 10 ^ d) by lia.
  apply N2Z.inj_lt. by rewrite N2Z.inj_pow.
Qed.



Lemma scan_digits_bound (l : list N) (b : bool) (acc : Z) (digits : N)
    (v : Z) (digits' : N) (rest : list N) :
  scan_digits b acc digits l = Some (v, digits', rest) →
  (0 ≤ acc < 10 ^ Z.of_N digits)%Z →
  (0 ≤ v < 10 ^ Z.of_N digits')%Z.
Proof.
  revert b acc digits. induction l as [|c l IH]; intros b acc digits; simpl.
  - destruct b; [done|]. by intros [= <- <- <-].
  - destruct ((48 <=? c) && (c <=? 57)) eqn:Hc.
    + intros H Hacc. apply (IH _ _ _ H).
      apply andb_true_iff in Hc as [H1%N.leb_le H2%N.leb_le].
      rewrite N2Z.inj_add, Z.pow_add_r by lia.
      change (10 ^ Z.of_N 1)%Z with 10%Z. lia.
    + destruct (c =? 95).
      * destruct b; [done|]. apply IH.
      * destruct b; [done|]. by intros [= <- <- <-].
Qed.

Lemma int_of_str_digits_printable (sign : Z) (l : list N) (n : Z) :
  sign = 1%Z ∨ sign = (-1)%Z →
  (scan_digits false 0 0 l
   ≫= λ '(v, digits, rest),
        if (digits =? 0) || (int_max_str_digits <? digits) then None
        else match skip_spaces rest with
             | [] => Some (sign * v)%Z
             | _ => None
             end) = Some n →
  str_digits_ok n = true.
Proof.
  intros Hsign.
  destruct (scan_digits false 0 0 l) as [[[v digits] rest]|] eqn:Hscan; [|done].
  cbn [mbind option_bind].
  destruct ((digits =? 0) || (int_max_str_digits <? digits)) eqn:Hd; [done|].
  destruct (skip_spaces rest); [|done]. intros [= <-].
  apply orb_false_iff in Hd as [Hd0%N.eqb_neq Hmax%N.ltb_ge].
  apply scan_digits_bound in Hscan as Hv; [|simpl; lia].
  apply N.leb_le. etrans; [|exact Hmax].
  apply str_of_int_length_le; [|lia].
  destruct Hsign as [-> | ->]; lia.
Qed.

(** What [int] returns, [str] can print. *)
Lemma int_of_str_printable (s : string) (n : Z) :
  int_of_str s = Some n → str_digits_ok n = true.
Proof.
  unfold int_of_str. destruct (utf8_decode s) as [cps|]; [|done].
  cbn [mbind option_bind].
  generalize (skip_spaces (transform cps)). intros l H.
  repeat case_match; simplify_eq; try done;
    (eapply int_of_str_digits_printable; [|eassumption]; auto).
Qed.

(** Every line number [parse_uri] returns can be printed. *)
Lemma parse_uri_line_printable (env : Env) (uri : string)
    (log : list (list string)) (p : File) (line : option Line) :
  parse_uri uri env = (log, Ok (p, line)) → line_printable line.
Proof.
  intros (_ & pr & _ & _ & Hout)%parse_uri_Ok_inv n ->.
  unfold parse_outcome in Hout.
  destruct (dict _ !! "line") as [line_s|].
  - destruct (int_of_str line_s) eqn:Hn; [|done].
    injection Hout as _ ->. eauto using int_of_str_printable.
  - destruct (rsplit _ _) as [|spl0 [|spl1 [|??]]]; try done.
    destruct (int_of_str spl1) eqn:Hn; [|done].
    injection Hout as _ ->. eauto using int_of_str_printable.
Qed.

(** ** More on strings *)

Lemma app_assoc_str (a b c : string) : (a +:+ b) +:+ c = a +:+ (b +:+ c).
Proof. induction a as [|d a IH]; [done|]. by rewrite !app_String, IH. Qed.

Lemma app_empty_r (s : string) : s +:+ "" = s.
Proof. induction s as [|d s IH]; [done|]. by rewrite app_String, IH. Qed.

Lemma forallb_str_app (P : ascii → bool) (a b : string) :
  forallb_str P (a +:+ b) = forallb_str P a && forallb_str P b.
Proof.
  induction a as [|d a IH]; [done|].
  rewrite app_String. simpl. by rewrite IH, andb_assoc.
Qed.

Lemma contains_app (c : ascii) (a b : string) :
  contains c (a +:+ b) = contains c a || contains c b.
Proof.
  induction a as [|d a IH]; [done|].
  rewrite app_String. simpl. by rewrite IH, orb_assoc.
Qed.

(** ** Quoting for the shell *)

Lemma shell_safe_literal (c : ascii) :
  is_shell_safe c = true →
  is_sh_blank c = false ∧ Ascii.eqb c (chr 39) = false
  ∧ Ascii.eqb c (chr 34) = false.
Proof. destruct c as [[] [] [] [] [] [] [] []]; by vm_compute. Qed.

Lemma sh_word_safe (cur w rest : string) :
  forallb_str is_shell_safe w = true →
  sh_split_go (ShWord cur) (w +:+ rest) = sh_split_go (ShWord (cur +:+ w)) rest.
Proof.
  revert cur. induction w as [|c w IH]; intros cur Hw.
  - by rewrite app_empty_l, app_empty_r.
  - simpl in Hw. apply andb_true_iff in Hw as [Hc Hw].
    destruct (shell_safe_literal c Hc) as (Hb & Hs & Hd).
    rewrite app_String. cbn [sh_split_go]. rewrite Hb, Hs, Hd, Hc.
    rewrite IH by done. by rewrite app_assoc_str.
Qed.

(** Inside single quotes, the text [shlex.quote] writes for [s] reads
    back as [s]: each single quote of [s] was written as a closing
    quote, a double-quoted single quote and an opening quote. *)
Lemma sh_single_replaced (cur s rest : string) :
  sh_split_go (ShSingle cur)
    (replace (chr 39) (squote +:+ dquote +:+ squote +:+ dquote +:+ squote) s
     +:+ String (chr 39) rest)
  = sh_split_go (ShWord (cur +:+ s)) rest.
Proof.
  revert cur. induction s as [|c s IH]; intros cur.
  - cbn [replace]. rewrite app_empty_l, app_empty_r. cbn [sh_split_go].
    by rewrite Ascii.eqb_refl.
  - cbn [replace]. destruct (Ascii.eqb c (chr 39)) eqn:Hc.
    + apply Ascii.eqb_eq in Hc as ->.
      change (squote +:+ dquote +:+ squote +:+ dquote +:+ squote)
        with (String (chr 39) (String (chr 34) (String (chr 39)
               (String (chr 34) (String (chr 39) ""))))).
      rewrite !app_String, app_empty_l.
      cbn [sh_split_go].
      change (Ascii.eqb (chr 39) (chr 39)) with true.
      change (Ascii.eqb (chr 34) (chr 34)) with true.
      change (Ascii.eqb (chr 39) (chr 34)) with false.
      change (Ascii.eqb (chr 39) "$" || Ascii.eqb (chr 39) "`"
              || Ascii.eqb (chr 39) "\") with false.
      change (is_sh_blank (chr 34)) with false.
      change (is_sh_blank (chr 39)) with false.
      change (Ascii.eqb (chr 34) (chr 39)) with false.
      cbv beta iota.
      rewrite IH. by rewrite app_assoc_str.
    + rewrite app_String. cbn [sh_split_go]. rewrite Hc.
      rewrite IH. by rewrite app_assoc_str.
Qed.

(** One quoted argument, at the start of a word, reads back as the
    argument. *)
Lemma sh_quote_word (w rest : string) :
  sh_split_go ShBlank (shlex_quote w +:+ rest) = sh_split_go (ShWord w) rest.
Proof.
  unfold shlex_quote. destruct (String.eqb w "") eqn:Hw.
  - apply String.eqb_eq in Hw as ->.
    change (squote +:+ squote) with (String (chr 39) (String (chr 39) "")).
    rewrite !app_String, app_empty_l. cbn [sh_split_go].
    change (is_sh_blank (chr 39)) with false.
    by change (Ascii.eqb (chr 39) (chr 39)) with true.
  - destruct (forallb_str is_shell_safe w) eqn:Hsafe.
    + destruct w as [|c w]; [done|].
      simpl in Hsafe. apply andb_true_iff in Hsafe as [Hc Hsafe].
      destruct (shell_safe_literal c Hc) as (Hb & Hs & Hd).
      rewrite app_String. cbn [sh_split_go]. rewrite Hb, Hs, Hd, Hc.
      by rewrite sh_word_safe.
    + change squote with (String (chr 39) "").
      rewrite !app_String, !app_empty_l, app_assoc_str, app_String, app_empty_l.
      cbn [sh_split_go].
      change (is_sh_blank (chr 39)) with false.
      change (Ascii.eqb (chr 39) (chr 39)) with true.
      cbv beta iota.
      by rewrite sh_single_replaced.
Qed.

Lemma sh_split_quoted (cmd : list string) :
  sh_split (String.concat " " (shlex_quote <$> cmd)) = Some cmd.
Proof.
  unfold sh_split. induction cmd as [|w cmd IH]; [done|].
  destruct cmd as [|w' cmd].
  - cbn [fmap list_fmap String.concat].
    rewrite <- (app_empty_r (shlex_quote w)). by rewrite sh_quote_word.
  - change (String.concat " " (shlex_quote <$> w :: w' :: cmd))
      with (shlex_quote w +:+ String " " (String.concat " " (shlex_quote <$> w' :: cmd))).
    rewrite sh_quote_word. cbn [sh_split_go].
    change (is_sh_blank " ") with true. cbv beta iota.
    by rewrite IH.
Qed.

(** ** The editor table and the strategies *)

Lemma EDITORS_lookup_None (editor : string) :
  EDITORS !! editor = None ↔ editor ∉ ["emacs"; "vim"; "gvim"; "default"].
Proof. unfold EDITORS. by rewrite <- not_elem_of_list_to_map. Qed.

Lemma with_line_printable (env : Env) (p : File) (line : option Line) :
  line_printable line →
  with_line p line env =
    ([], Ok match line with
            | Some n => ["+" +:+ str_of_int n; p]
            | None => [p]
            end).
Proof.
  intros Hline. destruct line as [n|]; [|done].
  unfold with_line, format_int. by rewrite (Hline n eq_refl).
Qed.


Lemma open_vim_eq (env : Env) (p : File) (line : option Line) :
  line_printable line →
  open_vim p line env = check_call (spec_run_in_terminal (spec_vim_argv p line)) env.
Proof.
  intros Hline. unfold open_vim.
  rewrite bind_eq, with_line_printable by done. cbn [fst snd app].
  destruct line; by rewrite <- surjective_pairing.
Qed.

Lemma check_call_log (cmd : list string) (env : Env) :
  (check_call cmd env).1 = [cmd].
Proof.
  unfold check_call. destruct (spawn env cmd) as [rc|e]; [|done].
  by destruct (rc =? 0)%Z.
Qed.








(** What [open_editor] does with a name that is not in its table, in
    any environment. *)
Lemma open_editor_fallback (env : Env) (uri editor : string)
    (p : File) (line : option Line) :
  EDITORS !! editor = None →
  parse_uri uri env = ([], Ok (p, line)) →
  open_editor uri editor env =
    match spawn env ["notify-send";
                     "Unexpected editor " +:+ editor +:+ "! Falling back to vim"] with
    | Exited _ =>
        (["notify-send";
          "Unexpected editor " +:+ editor +:+ "! Falling back to vim"]
           :: (open_vim p line env).1,
         (open_vim p line env).2)
    | NotStarted e =>
        ([["notify-send";
           "Unexpected editor " +:+ editor +:+ "! Falling back to vim"]],
         Raise e)
    end.
Proof.
  intros Hed Hparse. unfold open_editor.
  rewrite bind_eq, Hparse. cbn [fst snd app].
  rewrite bind_eq, Hed, bind_eq, notify_eq.
  destruct (spawn env _) as [rc|e]; [|done].
  by rewrite ret_eq.
Qed.

(** C7, as stated, fails on a machine where [notify-send] cannot be
    started: the unknown name ends the dispatch with the exception of
    that failed start, and the vim strategy, which would have run, is
    never started. *)
Lemma unknown_editor_aborts_without_notifier :
  EDITORS !! "nano" = None
  ∧ parse_uri "editor:///tmp/notes.txt:3" silent_env
    = ([], Ok ("/tmp/notes.txt", Some 3%Z))
  ∧ open_editor "editor:///tmp/notes.txt:3" "nano" silent_env
    = ([["notify-send"; "Unexpected editor nano! Falling back to vim"]],
       Raise (OSError 2))
  ∧ open_vim "/tmp/notes.txt" (Some 3%Z) silent_env
    = ([["x-terminal-emulator"; "-e"; "vim +3 /tmp/notes.txt"]], Ok tt).
Proof. by vm_compute. Qed.

(** C7, amended. For an editor name that is not in [EDITORS], and with
    a [notify-send] that can be started (whatever its exit status),
    [open_editor] sends the warning, then runs the vim strategy on the
    parsed target, and ends as that strategy ends: the unknown name
    raises nothing of its own. *)
Theorem open_editor_unknown_editor (env : Env) (uri editor : string)
    (p : File) (line : option Line) (rc : Z) :
  EDITORS !! editor = None →
  parse_uri uri env = ([], Ok (p, line)) →
  spawn env ["notify-send";
             "Unexpected editor " +:+ editor +:+ "! Falling back to vim"]
    = Exited rc →
  open_editor uri editor env =
    (["notify-send"; "Unexpected editor " +:+ editor +:+ "! Falling back to vim"]
       :: (open_vim p line env).1,
     (open_vim p line env).2).
Proof.
  intros Hed Hparse Hnotify.
  by rewrite (open_editor_fallback _ _ _ _ _ Hed Hparse), Hnotify.
Qed.

Lemma open_editor_unknown_editor_witness :
  EDITORS !! "nano" = None
  ∧ parse_uri "editor:///tmp/some file.org:3" desktop_env
    = ([], Ok ("/tmp/some file.org", Some 3%Z))
  ∧ spawn desktop_env
      ["notify-send"; "Unexpected editor " +:+ "nano" +:+ "! Falling back to vim"]
    = Exited 0
  ∧ open_editor "editor:///tmp/some file.org:3" "nano" desktop_env
    = ([["notify-send"; "Unexpected editor nano! Falling back to vim"];
        ["x-terminal-emulator"; "-e"; "vim +3 '/tmp/some file.org'"]],
       Ok tt).
Proof.
  assert (H1 : EDITORS !! "nano" = None) by (vm_compute; reflexivity).
  assert (H2 : parse_uri "editor:///tmp/some file.org:3" desktop_env
    = ([], Ok ("/tmp/some file.org", Some 3%Z))) by (vm_compute; reflexivity).
  assert (H3 : spawn desktop_env
      ["notify-send"; "Unexpected editor " +:+ "nano" +:+ "! Falling back to vim"]
    = Exited 0) by reflexivity.
  exact (conj H1 (conj H2 (conj H3
    (open_editor_unknown_editor desktop_env "editor:///tmp/some file.org:3"
       "nano" "/tmp/some file.org" (Some 3%Z) 0 H1 H2 H3)))).
Defined.

(** ** The default opener *)

Lemma open_default_found_first (env : Env) (uri : File) (line : option Line) :
  which env "xdg-open" = true →
  open_default uri line env = check_call ["xdg-open"; uri] env.
Proof.
  intros H. unfold open_default, open_default_loop, shutil_which.
  rewrite bind_eq, H. cbn [fst snd app]. by destruct (check_call _ env).
Qed.

Lemma open_default_found_second (env : Env) (uri : File) (line : option Line) :
  which env "xdg-open" = false →
  which env "open" = true →
  open_default uri line env = check_call ["open"; uri] env.
Proof.
  intros H1 H2. unfold open_default, open_default_loop, shutil_which.
  rewrite bind_eq, H1. cbn [fst snd app].
  rewrite bind_eq, H2. cbn [fst snd app]. by destruct (check_call _ env).
Qed.

(** With no opener on the path the [else] arm of the loop runs, and
    [error] ends it: the call to [open_vim] that follows is never
    reached, and the only child spawned is the notification. *)
Lemma open_default_not_found (env : Env) (uri : File) (line : option Line) :
  which env "xdg-open" = false →
  which env "open" = false →
  open_default uri line env =
    ([["notify-send";
       "No xdg-open/open found, can't figure out default editor. Fallback to vim!"]],
     Raise match spawn env ["notify-send";
       "No xdg-open/open found, can't figure out default editor. Fallback to vim!"] with
           | Exited _ => RuntimeError
       "No xdg-open/open found, can't figure out default editor. Fallback to vim!"
           | NotStarted e => e
           end).
Proof.
  intros H1 H2. unfold open_default, open_default_loop, shutil_which.
  rewrite bind_eq, H1. cbn [fst snd app].
  rewrite bind_eq, H2. cbn [fst snd app].
  by rewrite bind_eq, error_eq.
Qed.

(** C1. On a machine with neither [xdg-open] nor [open], the default
    strategy does not fall back to vim: [error] raises [RuntimeError]
    after the notification, so no terminal and no editor is started,
    whether the strategy is called directly or through [open_editor];
    the last line shows what the vim strategy would have started. *)
Theorem open_default_without_opener_aborts :
  open_default "/tmp/notes.txt" (Some 3%Z) bare_env
    = ([["notify-send";
         "No xdg-open/open found, can't figure out default editor. Fallback to vim!"]],
       Raise (RuntimeError
         "No xdg-open/open found, can't figure out default editor. Fallback to vim!"))
  ∧ open_editor "editor:///tmp/notes.txt:3" "default" bare_env
    = ([["notify-send";
         "No xdg-open/open found, can't figure out default editor. Fallback to vim!"]],
       Raise (RuntimeError
         "No xdg-open/open found, can't figure out default editor. Fallback to vim!"))
  ∧ open_vim "/tmp/notes.txt" (Some 3%Z) bare_env
    = ([["x-terminal-emulator"; "-e"; "vim +3 /tmp/notes.txt"]], Ok tt).
Proof.
  split; [exact (open_default_not_found bare_env _ _ eq_refl eq_refl)|].
  by vm_compute.
Qed.

(** * Further properties *)

(** ** The terminal, for any command *)

(** X1. Whatever the arguments (spaces, quotes, dollar signs, any
    byte), [launch_in_terminal] starts one child, the terminal emulator
    with [-e] and one command line, and the quoting rules of a shell
    cut that command line back into exactly the arguments given, word
    for word: no blank, quote, [$], backquote, backslash or other
    special character of an argument stands unquoted.  This is about
    the words only, not about a first word that a shell reads as a
    reserved word or as an assignment. *)
Theorem launch_in_terminal_round_trip (cmd : list string) (env : Env) :
  ∃ line : string,
    (launch_in_terminal cmd env).1 = [["x-terminal-emulator"; "-e"; line]]
    ∧ sh_split line = Some cmd.
Proof.
  exists (String.concat " " (shlex_quote <$> cmd)). split.
  - unfold launch_in_terminal. apply check_call_log.
  - apply sh_split_quoted.
Qed.

(** ** Notifications and errors *)

(** X2. [error] never returns normally: in every environment it spawns
    exactly the notification and ends in an exception, which is the
    [RuntimeError] with the reported text when [notify-send] could be
    started, and the exception of the failed start when it could
    not. *)
Theorem error_never_returns (env : Env) (what : string) :
  (error what env).1 = [["notify-send"; what]]
  ∧ (∀ u : unit, (error what env).2 ≠ Ok u)
  ∧ (∀ rc, spawn env ["notify-send"; what] = Exited rc →
           (error what env).2 = Raise (RuntimeError what))
  ∧ (∀ e, spawn env ["notify-send"; what] = NotStarted e →
          (error what env).2 = Raise e).
Proof.
  rewrite error_eq. cbn [fst snd]. split; [done|]. split; [done|].
  split; [by intros rc -> | by intros e ->].
Qed.

(** ** The parser and its children *)

(** X3. [parse_uri] never starts an editor: it spawns nothing at all,
    or, for a scheme mismatch, the one notification, and then it
    raises. *)
Theorem parse_uri_children (env : Env) (uri : string) :
  (parse_uri uri env).1 = []
  ∨ ((parse_uri uri env).1 = [["notify-send"; "Unexpected protocol " +:+ uri]]
     ∧ ∃ e, (parse_uri uri env).2 = Raise e).
Proof.
  destruct (urlparse uri env) as [l [pr|e]] eqn:Hpr.
  - pose proof (urlparse_log uri env) as Hl. rewrite Hpr in Hl. simpl in Hl.
    subst l. rewrite (parse_uri_unfold _ _ _ Hpr).
    destruct (String.eqb (scheme pr) PROTOCOL_NAME); [by left|].
    right. rewrite error_eq. cbn [fst snd]. eauto.
  - pose proof (urlparse_log uri env) as Hl. rewrite Hpr in Hl. simpl in Hl.
    subst l. left. by rewrite (parse_uri_urlparse_raises _ _ _ Hpr).
Qed.

(** ** Dispatch *)

(** X4. When [parse_uri] raises, [open_editor] stops there, whatever
    the editor name, registered or not: no editor is started and no
    fallback warning is sent. *)
Theorem open_editor_parse_failure (env : Env) (uri editor : string)
    (log : list (list string)) (e : exn) :
  parse_uri uri env = (log, Raise e) →
  open_editor uri editor env = (log, Raise e).
Proof. intros H. unfold open_editor. by rewrite bind_eq, H. Qed.

Lemma open_editor_parse_failure_witness :
  parse_uri "badmime://whatever" desktop_env
    = ([["notify-send"; "Unexpected protocol badmime://whatever"]],
       Raise (RuntimeError "Unexpected protocol badmime://whatever"))
  ∧ open_editor "badmime://whatever" "gvim" desktop_env
    = ([["notify-send"; "Unexpected protocol badmime://whatever"]],
       Raise (RuntimeError "Unexpected protocol badmime://whatever")).
Proof.
  assert (H : parse_uri "badmime://whatever" desktop_env
    = ([["notify-send"; "Unexpected protocol badmime://whatever"]],
       Raise (RuntimeError "Unexpected protocol badmime://whatever")))
    by (vm_compute; reflexivity).
  exact (conj H (open_editor_parse_failure desktop_env "badmime://whatever"
                   "gvim" _ _ H)).
Defined.

Lemma open_editor_lookup (env : Env) (uri editor : string)
    (opener : File → option Line → M unit) (p : File) (line : option Line) :
  EDITORS !! editor = Some opener →
  parse_uri uri env = ([], Ok (p, line)) →
  open_editor uri editor env = opener p line env.
Proof.
  intros Hed Hparse. unfold open_editor.
  rewrite bind_eq, Hparse. cbn [fst snd app].
  rewrite bind_eq, Hed, ret_eq. cbn [fst snd app].
  by destruct (opener p line env).
Qed.

(** X5. Each of the four registered names runs its own strategy on the
    parsed target, and nothing else: [gvim] and [emacsclient] are
    started directly with the path as it is, [vim] goes through the
    terminal, [default] through the system opener; no warning is
    sent.  The arguments [with_line] builds are [+<line>], when the
    URI gave a line, and the path. *)
Theorem open_editor_registered (env : Env) (uri : string)
    (p : File) (line : option Line) :
  parse_uri uri env = ([], Ok (p, line)) →
  ∃ args : list string,
    with_line p line env = ([], Ok args)
    ∧ "vim" :: args = spec_vim_argv p line
    ∧ open_editor uri "gvim" env = check_call (["gvim"] ++ args) env
    ∧ open_editor uri "emacs" env
      = check_call (["emacsclient"; "--create-frame";
                     "--alternate-editor=" +:+ dquote +:+ dquote]
                    ++ args) env
    ∧ open_editor uri "vim" env = launch_in_terminal (["vim"] ++ args) env
    ∧ open_editor uri "default" env = open_default p line env.
Proof.
  intros Hparse.
  pose proof (with_line_printable env p line
                (parse_uri_line_printable _ _ _ _ _ Hparse)) as Hargs.
  eexists. split; [exact Hargs|]. split; [by destruct line|].
  split; [|split; [|split]].
  - rewrite (open_editor_lookup env uri "gvim" open_gvim p line eq_refl Hparse).
    unfold open_gvim. rewrite bind_eq, Hargs. cbn [fst snd app].
    by rewrite <- surjective_pairing.
  - rewrite (open_editor_lookup env uri "emacs" open_emacs p line eq_refl Hparse).
    unfold open_emacs. rewrite bind_eq, Hargs. cbn [fst snd app].
    by rewrite <- surjective_pairing.
  - rewrite (open_editor_lookup env uri "vim" open_vim p line eq_refl Hparse).
    unfold open_vim. rewrite bind_eq, Hargs. cbn [fst snd app].
    by rewrite <- surjective_pairing.
  - by rewrite (open_editor_lookup env uri "default" open_default p line
                  eq_refl Hparse).
Qed.

Lemma open_editor_registered_witness :
  parse_uri "editor:///tmp/some file.org:3" failing_env
    = ([], Ok ("/tmp/some file.org", Some 3%Z))
  ∧ ∃ args : list string,
      with_line "/tmp/some file.org" (Some 3%Z) failing_env = ([], Ok args)
      ∧ "vim" :: args = ["vim"; "+3"; "/tmp/some file.org"]
      ∧ open_editor "editor:///tmp/some file.org:3" "gvim" failing_env
        = check_call (["gvim"] ++ args) failing_env
      ∧ open_editor "editor:///tmp/some file.org:3" "emacs" failing_env
        = check_call (["emacsclient"; "--create-frame";
                       "--alternate-editor=" +:+ dquote +:+ dquote]
                      ++ args) failing_env
      ∧ open_editor "editor:///tmp/some file.org:3" "vim" failing_env
        = launch_in_terminal (["vim"] ++ args) failing_env
      ∧ open_editor "editor:///tmp/some file.org:3" "default" failing_env
        = open_default "/tmp/some file.org" (Some 3%Z) failing_env.
Proof.
  assert (H : parse_uri "editor:///tmp/some file.org:3" failing_env
    = ([], Ok ("/tmp/some file.org", Some 3%Z))) by (vm_compute; reflexivity).
  exact (conj H (open_editor_registered failing_env
                   "editor:///tmp/some file.org:3" _ _ H)).
Defined.

(** ** The default opener, in every environment *)

Lemma check_call_Ok (cmd : list string) (env : Env) :
  (check_call cmd env).2 = Ok tt ↔ spawn env cmd = Exited 0.
Proof.
  unfold check_call. destruct (spawn env cmd) as [rc|e]; [|done].
  destruct (rc =? 0)%Z eqn:Hrc; cbn [snd].
  - apply Z.eqb_eq in Hrc as ->. done.
  - apply Z.eqb_neq in Hrc. split; [done|]. by intros [= ->].
Qed.

Lemma open_default_log (env : Env) (uri : File) (line : option Line) :
  (open_default uri line env).1 =
    [if which env "xdg-open" then ["xdg-open"; uri]
     else if which env "open" then ["open"; uri]
     else ["notify-send";
           "No xdg-open/open found, can't figure out default editor. Fallback to vim!"]].
Proof.
  destruct (which env "xdg-open") eqn:H1.
  - by rewrite open_default_found_first, check_call_log.
  - destruct (which env "open") eqn:H2.
    + by rewrite open_default_found_second, check_call_log.
    + by rewrite open_default_not_found.
Qed.

(** X6. The default strategy never uses the line number: in every
    environment, with or without an opener, its children and its
    outcome are the same for every line. *)
Theorem open_default_ignores_line (env : Env) (uri : File)
    (line line' : option Line) :
  open_default uri line env = open_default uri line' env.
Proof.
  destruct (which env "xdg-open") eqn:H1.
  - by rewrite !open_default_found_first.
  - destruct (which env "open") eqn:H2.
    + by rewrite !open_default_found_second.
    + by rewrite !open_default_not_found.
Qed.

(** X7. In every environment the default strategy starts exactly one
    child: [xdg-open] when it is on the path, whether [open] is there
    or not; otherwise [open] when it is on the path; otherwise the
    notification.  It returns normally exactly when the opener it
    chose exits with status 0. *)
Theorem open_default_one_child (env : Env) (uri : File) (line : option Line) :
  (open_default uri line env).1 =
    [if which env "xdg-open" then ["xdg-open"; uri]
     else if which env "open" then ["open"; uri]
     else ["notify-send";
           "No xdg-open/open found, can't figure out default editor. Fallback to vim!"]]
  ∧ ((open_default uri line env).2 = Ok tt ↔
     (which env "xdg-open" = true ∧ spawn env ["xdg-open"; uri] = Exited 0)
     ∨ (which env "xdg-open" = false ∧ which env "open" = true
        ∧ spawn env ["open"; uri] = Exited 0)).
Proof.
  split; [apply open_default_log|].
  destruct (which env "xdg-open") eqn:H1.
  - rewrite open_default_found_first, check_call_Ok by done.
    split; [by left | by intros [[_ ?]|[? _]]].
  - destruct (which env "open") eqn:H2.
    + rewrite open_default_found_second, check_call_Ok by done.
      split; [by right | by intros [[? _]|(_ & _ & ?)]].
    + rewrite open_default_not_found by done. cbn [snd].
      split; [done | by intros [[? _]|(_ & ? & _)]].
Qed.

(** X8. For a registered editor and a URI that parses, a dispatch
    starts exactly one child, in every environment: nothing is retried
    when the child fails or cannot be started, and nothing is started
    besides it. *)
Theorem dispatch_spawns_one_child (env : Env) (uri editor : string)
    (opener : File → option Line → M unit) (p : File) (line : option Line) :
  EDITORS !! editor = Some opener →
  parse_uri uri env = ([], Ok (p, line)) →
  length (open_editor uri editor env).1 = 1%nat.
Proof.
  intros Hed Hparse. rewrite (open_editor_lookup _ _ _ _ _ _ Hed Hparse).
  pose proof (parse_uri_line_printable _ _ _ _ _ Hparse) as Hline.
  pose proof (with_line_printable env p line Hline) as Hargs.
  unfold EDITORS in Hed. apply elem_of_list_to_map_2 in Hed.
  rewrite !elem_of_cons, elem_of_nil in Hed.
  destruct Hed as [[= _ ->]|[[= _ ->]|[[= _ ->]|[[= _ ->]|[]]]]].
  - unfold open_emacs. rewrite bind_eq, Hargs. cbn [fst snd app].
    by rewrite check_call_log.
  - by rewrite open_vim_eq, check_call_log.
  - unfold open_gvim. rewrite bind_eq, Hargs. cbn [fst snd app].
    by rewrite check_call_log.
  - by rewrite open_default_log.
Qed.

Lemma dispatch_spawns_one_child_witness :
  EDITORS !! "emacs" = Some open_emacs
  ∧ parse_uri "editor:///tmp/some file.org:3" failing_env
    = ([], Ok ("/tmp/some file.org", Some 3%Z))
  ∧ length (open_editor "editor:///tmp/some file.org:3" "emacs" failing_env).1
    = 1%nat.
Proof.
  assert (H1 : EDITORS !! "emacs" = Some open_emacs) by reflexivity.
  assert (H2 : parse_uri "editor:///tmp/some file.org:3" failing_env
    = ([], Ok ("/tmp/some file.org", Some 3%Z))) by (vm_compute; reflexivity).
  exact (conj H1 (conj H2
    (dispatch_spawns_one_child failing_env "editor:///tmp/some file.org:3"
       "emacs" open_emacs _ _ H1 H2))).
Defined.

(** ** [urlsplit] on a URI with a scheme and two slashes *)

Lemma forallb_str_impl (P Q : ascii → bool) (s : string) :
  (∀ c, P c = true → Q c = true) →
  forallb_str P s = true → forallb_str Q s = true.
Proof.
  intros HPQ. induction s as [|c s IH]; simpl; [done|].
  intros [Hc Hs]%andb_true_iff. by rewrite (HPQ c Hc), IH.
Qed.

Lemma forallb_str_absent (P : ascii → bool) (c : ascii) (s : string) :
  P c = false → forallb_str P s = true → contains c s = false.
Proof.
  intros Hc. induction s as [|d s IH]; simpl; [done|].
  intros [Hd Hs]%andb_true_iff. rewrite IH by done.
  destruct (Ascii.eqb d c) eqn:E; [|done].
  apply Ascii.eqb_eq in E as ->. congruence.
Qed.

Lemma replace_empty_app (c : ascii) (a b : string) :
  replace c "" (a +:+ b) = replace c "" a +:+ replace c "" b.
Proof.
  induction a as [|d a IH]; [done|].
  rewrite app_String. simpl. destruct (Ascii.eqb d c).
  - by rewrite !app_empty_l.
  - by rewrite app_String, IH.
Qed.

Lemma remove_unsafe_app (a b : string) :
  remove_unsafe (a +:+ b) = remove_unsafe a +:+ remove_unsafe b.
Proof. unfold remove_unsafe. by rewrite !replace_empty_app. Qed.

Lemma contains_replace_empty (c d : ascii) (s : string) :
  contains c s = false → contains c (replace d "" s) = false.
Proof.
  induction s as [|e s IH]; simpl; [done|].
  intros [He Hs]%orb_false_iff. destruct (Ascii.eqb e d).
  - rewrite app_empty_l. auto.
  - simpl. by rewrite He, IH.
Qed.

Lemma contains_remove_unsafe (c : ascii) (s : string) :
  contains c s = false → contains c (remove_unsafe s) = false.
Proof. intros H. unfold remove_unsafe. by do 3 apply contains_replace_empty. Qed.

Lemma span_app_stop (P : ascii → bool) (a : string) (c : ascii) (b : string) :
  forallb_str P a = true → P c = false →
  span P (a +:+ String c b) = (a, String c b).
Proof.
  intros Ha Hc. induction a as [|d a IH].
  - rewrite app_empty_l. simpl. by rewrite Hc.
  - simpl in Ha. apply andb_true_iff in Ha as [Hd Ha].
    rewrite app_String. simpl. by rewrite Hd, IH.
Qed.

Lemma span_app_stopper (P : ascii → bool) (a : string) (c : ascii) (b : string) :
  P c = false →
  span P (a +:+ String c b) = ((span P a).1, (span P a).2 +:+ String c b).
Proof.
  intros Hc. induction a as [|d a IH].
  - rewrite app_empty_l. simpl. by rewrite Hc.
  - rewrite app_String. simpl. destruct (P d); [|done].
    rewrite IH. by destruct (span P a).
Qed.

Lemma contains_span_rest (P : ascii → bool) (c : ascii) (a : string) :
  contains c a = false → contains c (span P a).2 = false.
Proof.
  induction a as [|d a IH]; simpl; [done|].
  intros [Hd Ha]%orb_false_iff. destruct (P d).
  - destruct (span P a). simpl in *. auto.
  - simpl. by rewrite Hd, Ha.
Qed.

Lemma scheme_char_facts (c : ascii) :
  is_scheme_char c = true →
  Ascii.eqb c ":" = false ∧ Ascii.eqb c "009" = false
  ∧ Ascii.eqb c "010" = false ∧ Ascii.eqb c "013" = false.
Proof. destruct c as [[] [] [] [] [] [] [] []]; by vm_compute. Qed.

Lemma alpha_not_stripped (c : ascii) :
  is_ascii_alpha c = true → is_c0_control_or_space c = false.
Proof. destruct c as [[] [] [] [] [] [] [] []]; by vm_compute. Qed.

Lemma scheme_absent (c : ascii) (sch : string) :
  is_scheme_char c = false →
  forallb_str is_scheme_char sch = true → contains c sch = false.
Proof. apply forallb_str_absent. Qed.

(** What [urlsplit] returns for [<scheme>://<rest>]: the scheme in
    lower case, the authority up to the first delimiter, and the
    fragment and query cut off what follows. *)
Lemma urlsplit_with_scheme (env : Env) (c0 : ascii) (pre s : string) :
  is_ascii c0 = true → is_ascii_alpha c0 = true →
  forallb_str is_scheme_char (String c0 pre) = true →
  urlsplit env (String c0 pre +:+ "://" +:+ s) =
    let '(nl, url) := splitnetloc (remove_unsafe s) in
    if negb (brackets_ok env nl) then None
    else let '(p, q, f) := split_fragment_query url in
         if checknetloc env nl
         then Some (lower (String c0 pre), nl, p, q, f) else None.
Proof.
  intros Hascii Halpha Hsch. unfold urlsplit.
  rewrite app_String. cbn [lstrip].
  rewrite (alpha_not_stripped _ Halpha).
  rewrite <- app_String, remove_unsafe_app.
  assert (Hclean : remove_unsafe (String c0 pre) = String c0 pre).
  { unfold remove_unsafe.
    rewrite (replace_absent "009" "" _) by (by apply scheme_absent).
    rewrite (replace_absent "013" "" _) by (by apply scheme_absent).
    by rewrite (replace_absent "010" "" _) by (by apply scheme_absent). }
  rewrite Hclean.
  change (remove_unsafe ("://" +:+ s))
    with (String ":" (String "/" (String "/" (remove_unsafe s)))).
  unfold split_scheme.
  rewrite split_first_app by (by apply scheme_absent).
  rewrite Hascii, Halpha, Hsch. cbn [andb].
  cbv beta iota zeta.
  destruct (splitnetloc (remove_unsafe s)) as [nl url].
  destruct (negb (brackets_ok env nl)); [done|].
  unfold split_fragment_query.
  destruct (split_first "#" url) as [[a b]|];
    destruct (split_first "?" _) as [[a' b']|]; done.
Qed.

Lemma urlsplit_editor (env : Env) (s : string) :
  urlsplit env ("editor://" +:+ s) =
    let '(nl, url) := splitnetloc (remove_unsafe s) in
    if negb (brackets_ok env nl) then None
    else let '(p, q, f) := split_fragment_query url in
         if checknetloc env nl then Some ("editor", nl, p, q, f) else None.
Proof. exact (urlsplit_with_scheme env "e" "ditor" s eq_refl eq_refl eq_refl). Qed.

(** [parse_uri] needs only the path and the query of what [urlsplit]
    returns. *)
Lemma parse_uri_of_urlsplit (env : Env) (uri nl p q f : string) :
  urlsplit env uri = Some ("editor", nl, p, q, f) →
  parse_uri uri env =
    ([], parse_outcome {| scheme := "editor"; netloc := ""; path := p;
                          params := ""; query := q; fragment := "" |}).
Proof.
  intros Hsplit.
  assert (Hpr : urlparse uri env =
    ([], Ok {| scheme := "editor"; netloc := nl; path := p;
               params := ""; query := q; fragment := f |})).
  { unfold urlparse. by rewrite Hsplit, editor_not_in_uses_params. }
  by rewrite (parse_uri_accepted _ _ _ Hpr eq_refl).
Qed.

Lemma parse_uri_urlsplit_None (env : Env) (uri : string) :
  urlsplit env uri = None → parse_uri uri env = ([], Raise ValueError).
Proof.
  intros Hsplit. apply parse_uri_urlparse_raises.
  unfold urlparse. by rewrite Hsplit.
Qed.

(** Two URIs that [urlsplit] reads with the same scheme [editor], the
    same path and the same query, or both refuses, parse alike. *)
Lemma parse_uri_same_split (env : Env) (uri1 uri2 : string) :
  match urlsplit env uri1, urlsplit env uri2 with
  | Some (sch1, _, p1, q1, _), Some (sch2, _, p2, q2, _) =>
      sch1 = "editor" ∧ sch2 = "editor" ∧ p1 = p2 ∧ q1 = q2
  | None, None => True
  | _, _ => False
  end →
  parse_uri uri1 env = parse_uri uri2 env.
Proof.
  destruct (urlsplit env uri1) as [[[[[sch1 nl1] p1] q1] f1]|] eqn:H1;
    destruct (urlsplit env uri2) as [[[[[sch2 nl2] p2] q2] f2]|] eqn:H2;
    try done.
  - intros (-> & -> & -> & ->).
    by rewrite (parse_uri_of_urlsplit _ _ _ _ _ _ H1),
               (parse_uri_of_urlsplit _ _ _ _ _ _ H2).
  - intros _. by rewrite !parse_uri_urlsplit_None.
Qed.

Lemma host_char_facts (c : ascii) :
  is_host_char c = true →
  is_ascii c = true
  ∧ negb (Ascii.eqb c "/" || Ascii.eqb c "?" || Ascii.eqb c "#") = true
  ∧ Ascii.eqb c "009" = false ∧ Ascii.eqb c "010" = false
  ∧ Ascii.eqb c "013" = false.
Proof.
  unfold is_host_char. intros [Ha H]%andb_true_iff.
  apply negb_true_iff in H.
  apply orb_false_iff in H as [H H13].
  apply orb_false_iff in H as [H H10].
  apply orb_false_iff in H as [H H09].
  by rewrite H.
Qed.

Lemma remove_unsafe_host (nl : string) :
  forallb_str is_host_char nl = true → remove_unsafe nl = nl.
Proof.
  intros Hnl. unfold remove_unsafe.
  assert (H : ∀ c, is_host_char c = false → contains c nl = false)
    by (intros c Hc; by apply (forallb_str_absent is_host_char)).
  rewrite (replace_absent "009" "" nl) by (by apply H).
  rewrite (replace_absent "013" "" nl) by (by apply H).
  by rewrite (replace_absent "010" "" nl) by (by apply H).
Qed.

(** [urlsplit] on [editor://<authority>/<rest>]. *)
Lemma urlsplit_editor_host (env : Env) (nl r : string) :
  forallb_str is_host_char nl = true →
  urlsplit env ("editor://" +:+ nl +:+ String "/" r) =
    if negb (brackets_ok env nl) then None
    else Some ("editor", nl,
               (split_fragment_query (String "/" (remove_unsafe r))).1.1,
               (split_fragment_query (String "/" (remove_unsafe r))).1.2,
               (split_fragment_query (String "/" (remove_unsafe r))).2).
Proof.
  intros Hnl. rewrite urlsplit_editor, remove_unsafe_app, remove_unsafe_host by done.
  change (remove_unsafe (String "/" r)) with (String "/" (remove_unsafe r)).
  unfold splitnetloc. rewrite span_app_stop; [|
    by apply (forallb_str_impl is_host_char); [intros c Hc; apply host_char_facts in Hc; tauto|] | done].
  destruct (negb (brackets_ok env nl)); [done|].
  destruct (split_fragment_query _) as [[p q] f].
  assert (Hcheck : checknetloc env nl = true).
  { unfold checknetloc.
    rewrite (forallb_str_impl is_host_char is_ascii nl); [by rewrite orb_true_r| |done].
    intros c Hc. apply host_char_facts in Hc. tauto. }
  by rewrite Hcheck.
Qed.

(** X9. The authority of the URI plays no part: with a host between
    the two slashes and the path, [parse_uri] returns what it returns
    without it.  In particular [editor://a/b] names the file [/b]. *)
Theorem parse_uri_ignores_authority (env : Env) (nl r : string) :
  forallb_str is_host_char nl = true →
  contains "[" nl = false → contains "]" nl = false →
  parse_uri ("editor://" +:+ nl +:+ String "/" r) env
  = parse_uri ("editor://" +:+ String "/" r) env.
Proof.
  intros Hnl Hopen Hclose. apply parse_uri_same_split.
  rewrite (urlsplit_editor_host env nl r Hnl).
  change ("editor://" +:+ String "/" r)
    with ("editor://" +:+ "" +:+ String "/" r).
  rewrite (urlsplit_editor_host env "" r eq_refl).
  unfold brackets_ok. rewrite Hopen, Hclose. by cbn.
Qed.

Lemma parse_uri_ignores_authority_witness :
  forallb_str is_host_char "home" = true
  ∧ contains "[" "home" = false ∧ contains "]" "home" = false
  ∧ parse_uri ("editor://" +:+ "home" +:+ String "/" "user/notes.txt:12")
      desktop_env
    = parse_uri ("editor://" +:+ String "/" "user/notes.txt:12") desktop_env.
Proof.
  assert (H1 : forallb_str is_host_char "home" = true) by reflexivity.
  assert (H2 : contains "[" "home" = false) by reflexivity.
  assert (H3 : contains "]" "home" = false) by reflexivity.
  exact (conj H1 (conj H2 (conj H3
    (parse_uri_ignores_authority desktop_env "home" "user/notes.txt:12"
       H1 H2 H3)))).
Defined.

(** X10. An authority with an opening bracket and no closing one, or
    the other way round, makes [parse_uri] fail with the [ValueError]
    of [urlparse]; nothing is spawned, so this failure is not reported
    through [notify-send]. *)
Theorem parse_uri_unmatched_bracket (env : Env) (nl r : string) :
  forallb_str is_host_char nl = true →
  xorb (contains "[" nl) (contains "]" nl) = true →
  parse_uri ("editor://" +:+ nl +:+ String "/" r) env = ([], Raise ValueError).
Proof.
  intros Hnl Hx. apply parse_uri_urlsplit_None.
  rewrite (urlsplit_editor_host env nl r Hnl).
  unfold brackets_ok. by rewrite Hx.
Qed.

Lemma parse_uri_unmatched_bracket_witness :
  forallb_str is_host_char "[" = true
  ∧ xorb (contains "[" "[") (contains "]" "[") = true
  ∧ parse_uri ("editor://" +:+ "[" +:+ String "/" "tmp/x") desktop_env
    = ([], Raise ValueError).
Proof.
  assert (H1 : forallb_str is_host_char "[" = true) by reflexivity.
  assert (H2 : xorb (contains "[" "[") (contains "]" "[") = true)
    by reflexivity.
  exact (conj H1 (conj H2
    (parse_uri_unmatched_bracket desktop_env "[" "tmp/x" H1 H2))).
Defined.

Lemma split_fragment_query_hash (u f : string) :
  contains "#" u = false →
  split_fragment_query (u +:+ String "#" f)
  = ((split_fragment_query u).1.1, (split_fragment_query u).1.2, f).
Proof.
  intros Hu. unfold split_fragment_query.
  rewrite (split_first_app "#" u f Hu), (split_first_None "#" u Hu).
  by destruct (split_first "?" u) as [[a b]|].
Qed.

(** X11. The fragment of the URI is dropped: whatever follows the
    first [#] changes nothing of what [parse_uri] does, be it a target
    or a failure. *)
Theorem parse_uri_ignores_fragment (env : Env) (s frag : string) :
  contains "#" s = false →
  parse_uri ("editor://" +:+ s +:+ "#" +:+ frag) env
  = parse_uri ("editor://" +:+ s) env.
Proof.
  intros Hs. apply parse_uri_same_split.
  rewrite !urlsplit_editor, remove_unsafe_app.
  change (remove_unsafe ("#" +:+ frag)) with (String "#" (remove_unsafe frag)).
  unfold splitnetloc. rewrite span_app_stopper by done.
  pose proof (contains_span_rest
    (λ c, negb (Ascii.eqb c "/" || Ascii.eqb c "?" || Ascii.eqb c "#")) "#"
    (remove_unsafe s) (contains_remove_unsafe _ _ Hs)) as Hrest.
  destruct (span _ (remove_unsafe s)) as [nl url]. cbn [fst snd] in *.
  destruct (negb (brackets_ok env nl)); [done|].
  rewrite split_fragment_query_hash by done.
  destruct (split_fragment_query url) as [[p q] f]. cbn [fst snd].
  by destruct (checknetloc env nl).
Qed.

Lemma parse_uri_ignores_fragment_witness :
  contains "#" "/path/to/file:10" = false
  ∧ parse_uri ("editor://" +:+ "/path/to/file:10" +:+ "#" +:+ "L20:30")
      desktop_env
    = parse_uri ("editor://" +:+ "/path/to/file:10") desktop_env.
Proof.
  assert (H : contains "#" "/path/to/file:10" = false) by reflexivity.
  exact (conj H (parse_uri_ignores_fragment desktop_env "/path/to/file:10"
                   "L20:30" H)).
Defined.

(** ** The scheme, in any case *)

Lemma lower_letter_facts (c : ascii) :
  is_lower (to_lower c) = true →
  is_ascii c = true ∧ is_ascii_alpha c = true ∧ is_scheme_char c = true.
Proof. destruct c as [[] [] [] [] [] [] [] []]; by vm_compute. Qed.

Lemma lower_letters_scheme (sch t : string) :
  lower sch = t → forallb_str is_lower t = true →
  forallb_str is_scheme_char sch = true.
Proof.
  revert t. induction sch as [|c sch IH]; intros t; [done|].
  simpl. intros <-. simpl. intros [Hc Ht]%andb_true_iff.
  destruct (lower_letter_facts c Hc) as (_ & _ & ->). simpl.
  by apply (IH (lower sch)).
Qed.

(** X12. The scheme is matched without regard to case: a URI whose
    scheme is [editor] in any mix of upper and lower case is parsed
    exactly as with the lower-case scheme. *)
Theorem parse_uri_scheme_any_case (env : Env) (sch s : string) :
  lower sch = PROTOCOL_NAME →
  parse_uri (sch +:+ "://" +:+ s) env = parse_uri ("editor://" +:+ s) env.
Proof.
  intros Hlow. apply parse_uri_same_split.
  pose proof (lower_letters_scheme sch _ Hlow eq_refl) as Hsch.
  destruct sch as [|c0 pre]; [done|].
  assert (Hc0 : is_lower (to_lower c0) = true).
  { injection Hlow as Hc _. by rewrite Hc. }
  destruct (lower_letter_facts c0 Hc0) as (Hascii & Halpha & _).
  rewrite (urlsplit_with_scheme env c0 pre s Hascii Halpha Hsch), Hlow.
  rewrite urlsplit_editor.
  destruct (splitnetloc (remove_unsafe s)) as [nl url].
  destruct (negb (brackets_ok env nl)); [done|].
  destruct (split_fragment_query url) as [[p q] f].
  by destruct (checknetloc env nl).
Qed.

Lemma parse_uri_scheme_any_case_witness :
  lower "EdItOr" = PROTOCOL_NAME
  ∧ parse_uri ("EdItOr" +:+ "://" +:+ "/path/to/file:10") desktop_env
    = parse_uri ("editor://" +:+ "/path/to/file:10") desktop_env.
Proof.
  assert (H : lower "EdItOr" = PROTOCOL_NAME) by reflexivity.
  exact (conj H (parse_uri_scheme_any_case desktop_env "EdItOr"
                   "/path/to/file:10" H)).
Defined.

(** ** Percent-decoding comes first *)

Lemma split_absent (c : ascii) (s : string) :
  contains c s = false → split c s = [s].
Proof.
  induction s as [|d s IH]; simpl; [done|].
  intros [Hd Hs]%orb_false_iff. by rewrite Hd, IH.
Qed.

Lemma split_app_sep (c : ascii) (a b : string) :
  contains c a = false → split c (a +:+ String c b) = a :: split c b.
Proof.
  induction a as [|d a IH]; cbn [contains].
  - intros _. rewrite app_empty_l. simpl. by rewrite Ascii.eqb_refl.
  - intros [Hd Ha]%orb_false_iff. rewrite app_String. simpl.
    by rewrite Hd, IH.
Qed.

Lemma decode_replace_ascii (s : string) :
  forallb_str is_ascii s = true → decode_replace s = s.
Proof.
  induction s as [|c s IH]; [done|].
  simpl. intros [Hc Hs]%andb_true_iff.
  unfold is_ascii in Hc. by rewrite Hc, IH.
Qed.

Lemma unquote_ascii_run_eq (r : string) :
  unquote_ascii_run r = decode_replace (unquote_to_bytes r).
Proof. by destruct r. Qed.

Lemma unquote_runs_ascii (r s : string) :
  forallb_str is_ascii s = true →
  unquote_runs r s = unquote_ascii_run (r +:+ s).
Proof.
  revert r. induction s as [|c s IH]; intros r.
  - intros _. by rewrite app_empty_r.
  - simpl. intros [Hc Hs]%andb_true_iff. rewrite Hc, IH by done.
    by rewrite app_assoc_str.
Qed.

(** An encoded colon between two pieces of plain ASCII text decodes to
    the colon. *)
Lemma unquote_encoded_colon (a b : string) :
  forallb_str is_ascii a = true → forallb_str is_ascii b = true →
  contains "%" a = false → contains "%" b = false →
  unquote (a +:+ "%3A" +:+ b) = a +:+ ":" +:+ b.
Proof.
  intros Ha Hb Hpa Hpb. unfold unquote.
  rewrite contains_app. change (contains "%" ("%3A" +:+ b)) with true.
  rewrite orb_true_r. cbn [negb].
  rewrite unquote_runs_ascii, app_empty_l, unquote_ascii_run_eq.
  - unfold unquote_to_bytes.
    change ("%3A" +:+ b) with (String "%" (String "3" (String "A" b))).
    rewrite split_app_sep by done.
    rewrite (split_absent "%" (String "3" (String "A" b))) by done.
    change (String.concat "" (map unquote_item [String "3" (String "A" b)]))
      with (":" +:+ b).
    apply decode_replace_ascii.
    rewrite forallb_str_app, Ha. by change (":" +:+ b) with (String ":" b).
  - rewrite forallb_str_app, Ha.
    by change ("%3A" +:+ b) with (String "%" (String "3" (String "A" b))).
Qed.

Lemma split_fragment_query_none (u : string) :
  contains "#" u = false → contains "?" u = false →
  split_fragment_query u = (u, "", "").
Proof.
  intros Hh Hq. unfold split_fragment_query.
  by rewrite (split_first_None "#" u Hh), (split_first_None "?" u Hq).
Qed.

(** What [parse_uri] returns for [editor://] followed by a path that
    holds no [?], no [#] and none of the characters [urlsplit]
    removes. *)
Lemma parse_uri_editor_path (env : Env) (r : string) :
  contains "#" r = false → contains "?" r = false →
  remove_unsafe r = r →
  parse_uri ("editor://" +:+ String "/" r) env =
    ([], parse_outcome {| scheme := "editor"; netloc := ""; path := String "/" r;
                          params := ""; query := ""; fragment := "" |}).
Proof.
  intros Hh Hq Hr.
  pose proof (urlsplit_editor_host env "" r eq_refl) as Hsplit.
  change ("editor://" +:+ "" +:+ String "/" r)
    with ("editor://" +:+ String "/" r) in Hsplit.
  change (negb (brackets_ok env "")) with false in Hsplit.
  rewrite Hr, (split_fragment_query_none (String "/" r)) in Hsplit by done.
  by rewrite (parse_uri_of_urlsplit _ _ _ _ _ _ Hsplit).
Qed.

(** X13. Percent-decoding comes before the search for the line
    number, so an encoded colon separates a line number exactly as a
    literal colon does: a colon cannot be kept in a file name by
    writing it [%3A]. *)
Theorem parse_uri_encoded_colon (env : Env) (l d : string) :
  forallb_str is_ascii l = true → forallb_str is_plain_char l = true →
  forallb_str is_ascii d = true → forallb_str is_plain_char d = true →
  parse_uri ("editor://" +:+ String "/" l +:+ "%3A" +:+ d) env
  = parse_uri ("editor://" +:+ String "/" l +:+ ":" +:+ d) env.
Proof.
  intros Hal Hpl Had Hpd.
  assert (Hc : ∀ c, is_plain_char c = false →
                    contains c l = false ∧ contains c d = false)
    by (intros c Hc; split; by apply plain_contains).
  rewrite (app_String "/" l ("%3A" +:+ d)), (app_String "/" l (":" +:+ d)).
  rewrite (parse_uri_editor_path env (l +:+ "%3A" +:+ d)).
  - rewrite (parse_uri_editor_path env (l +:+ ":" +:+ d)).
    + unfold parse_outcome. cbn [query path].
      change (dict (parse_qsl "") !! "line") with (@None string).
      rewrite <- (app_String "/" l ("%3A" +:+ d)), <- (app_String "/" l (":" +:+ d)).
      assert (Hal' : forallb_str is_ascii (String "/" l) = true)
        by (cbn [forallb_str]; by rewrite Hal).
      assert (Hpl' : contains "%" (String "/" l) = false)
        by (cbn [contains]; by apply Hc).
      rewrite (unquote_encoded_colon (String "/" l) d Hal' Had Hpl'
                 (proj2 (Hc "%"%char eq_refl))).
      rewrite (unquote_plain (String "/" l +:+ ":" +:+ d)); [done|].
      rewrite forallb_str_app. cbn [forallb_str]. rewrite Hpl.
      by change (":" +:+ d) with (String ":" d).
    + rewrite contains_app. change (":" +:+ d) with (String ":" d).
      cbn [contains]. by rewrite (proj1 (Hc "#"%char eq_refl)), (proj2 (Hc "#"%char eq_refl)).
    + rewrite contains_app. change (":" +:+ d) with (String ":" d).
      cbn [contains]. by rewrite (proj1 (Hc "?"%char eq_refl)), (proj2 (Hc "?"%char eq_refl)).
    + apply remove_unsafe_plain. rewrite forallb_str_app, Hpl.
      by change (":" +:+ d) with (String ":" d).
  - rewrite contains_app. change ("%3A" +:+ d) with (String "%" (String "3" (String "A" d))).
    cbn [contains]. by rewrite (proj1 (Hc "#"%char eq_refl)), (proj2 (Hc "#"%char eq_refl)).
  - rewrite contains_app. change ("%3A" +:+ d) with (String "%" (String "3" (String "A" d))).
    cbn [contains]. by rewrite (proj1 (Hc "?"%char eq_refl)), (proj2 (Hc "?"%char eq_refl)).
  - rewrite remove_unsafe_app, (remove_unsafe_plain l) by done.
    change (remove_unsafe ("%3A" +:+ d)) with ("%3A" +:+ remove_unsafe d).
    by rewrite (remove_unsafe_plain d).
Qed.

Lemma parse_uri_encoded_colon_witness :
  forallb_str is_ascii "path/to/file" = true
  ∧ forallb_str is_plain_char "path/to/file" = true
  ∧ forallb_str is_ascii "10" = true
  ∧ forallb_str is_plain_char "10" = true
  ∧ parse_uri ("editor://" +:+ String "/" "path/to/file" +:+ "%3A" +:+ "10")
      desktop_env
    = parse_uri ("editor://" +:+ String "/" "path/to/file" +:+ ":" +:+ "10")
        desktop_env.
Proof.
  assert (H1 : forallb_str is_ascii "path/to/file" = true) by reflexivity.
  assert (H2 : forallb_str is_plain_char "path/to/file" = true) by reflexivity.
  assert (H3 : forallb_str is_ascii "10" = true) by reflexivity.
  assert (H4 : forallb_str is_plain_char "10" = true) by reflexivity.
  exact (conj H1 (conj H2 (conj H3 (conj H4
    (parse_uri_encoded_colon desktop_env "path/to/file" "10" H1 H2 H3 H4))))).
Defined.

(** ** The program's own tests *)

(** X14. Every assertion of the program's [test_parse_uri] holds, in
    every environment: the six expected targets are returned without
    anything being spawned, and the foreign scheme raises. *)
Theorem test_parse_uri_passes (env : Env) :
  parse_uri "editor:///path/to/file" env = ([], Ok ("/path/to/file", None))
  ∧ parse_uri "editor:///path/with spaces" env
    = ([], Ok ("/path/with spaces", None))
  ∧ parse_uri "editor:///path/url%20encoded" env
    = ([], Ok ("/path/url encoded", None))
  ∧ parse_uri "editor:///path/to/file:10" env
    = ([], Ok ("/path/to/file", Some 10%Z))
  ∧ parse_uri "editor:///path/to/file?line=10" env
    = ([], Ok ("/path/to/file", Some 10%Z))
  ∧ parse_uri "editor:///path/to/file:oops/and:more" env
    = ([], Ok ("/path/to/file:oops/and:more", None))
  ∧ ∃ e, (parse_uri "badmime://whatever" env).2 = Raise e.
Proof.
  repeat (split; [by vm_compute|]).
  assert (Hpr : urlparse "badmime://whatever" env
    = ([], Ok {| scheme := "badmime"; netloc := "whatever"; path := "";
                 params := ""; query := ""; fragment := "" |}))
    by reflexivity.
  rewrite (parse_uri_unfold _ _ _ Hpr).
  change (String.eqb (scheme _) PROTOCOL_NAME) with false.
  rewrite error_eq. cbn [snd]. eauto.
Qed.

(** ** The vim strategy, end to end *)

(** X15. For every URI that parses, dispatching to [vim] starts the
    terminal emulator with one command line which a shell splits into
    [vim], [+<line>] when the URI gave a line, and the path, whatever
    characters the path holds. *)
Theorem vim_dispatch_command_line (env : Env) (uri : string)
    (p : File) (line : option Line) :
  parse_uri uri env = ([], Ok (p, line)) →
  ∃ (args : list string) (command : string),
    with_line p line env = ([], Ok args)
    ∧ "vim" :: args = spec_vim_argv p line
    ∧ (open_editor uri "vim" env).1 = [["x-terminal-emulator"; "-e"; command]]
    ∧ sh_split command = Some (["vim"] ++ args).
Proof.
  intros Hparse.
  pose proof (parse_uri_line_printable _ _ _ _ _ Hparse) as Hline.
  eexists _, (String.concat " " (shlex_quote <$> spec_vim_argv p line)).
  split; [by apply with_line_printable|]. split; [by destruct line|].
  rewrite (open_editor_lookup env uri "vim" open_vim p line eq_refl Hparse).
  rewrite open_vim_eq by done.
  split; [apply check_call_log|].
  rewrite sh_split_quoted. by destruct line.
Qed.

Lemma vim_dispatch_command_line_witness :
  parse_uri "editor:///tmp/it's%20a%20$HOME;file:7" desktop_env
    = ([], Ok ("/tmp/it's a $HOME;file", Some 7%Z))
  ∧ ∃ (args : list string) (command : string),
      with_line "/tmp/it's a $HOME;file" (Some 7%Z) desktop_env = ([], Ok args)
      ∧ "vim" :: args = ["vim"; "+7"; "/tmp/it's a $HOME;file"]
      ∧ (open_editor "editor:///tmp/it's%20a%20$HOME;file:7" "vim" desktop_env).1
        = [["x-terminal-emulator"; "-e"; command]]
      ∧ sh_split command = Some (["vim"] ++ args).
Proof.
  assert (H : parse_uri "editor:///tmp/it's%20a%20$HOME;file:7" desktop_env
    = ([], Ok ("/tmp/it's a $HOME;file", Some 7%Z)))
    by (vm_compute; reflexivity).
  exact (conj H (vim_dispatch_command_line desktop_env
                   "editor:///tmp/it's%20a%20$HOME;file:7" _ _ H)).
Defined.

(** ** The fallback without a notifier *)

(** X16. With an editor name that is not registered, a [notify-send]
    that cannot be started ends the dispatch: the exception of the
    failed start is raised and vim is not started. *)
Theorem open_editor_fallback_needs_notifier (env : Env) (uri editor : string)
    (p : File) (line : option Line) (e : exn) :
  EDITORS !! editor = None →
  parse_uri uri env = ([], Ok (p, line)) →
  spawn env ["notify-send";
             "Unexpected editor " +:+ editor +:+ "! Falling back to vim"]
    = NotStarted e →
  open_editor uri editor env =
    ([["notify-send";
       "Unexpected editor " +:+ editor +:+ "! Falling back to vim"]],
     Raise e).
Proof.
  intros Hed Hparse Hnotify.
  by rewrite (open_editor_fallback _ _ _ _ _ Hed Hparse), Hnotify.
Qed.

Lemma open_editor_fallback_needs_notifier_witness :
  EDITORS !! "nano" = None
  ∧ parse_uri "editor:///tmp/some file.org:3" silent_env
    = ([], Ok ("/tmp/some file.org", Some 3%Z))
  ∧ spawn silent_env
      ["notify-send"; "Unexpected editor " +:+ "nano" +:+ "! Falling back to vim"]
    = NotStarted (OSError 2)
  ∧ open_editor "editor:///tmp/some file.org:3" "nano" silent_env
    = ([["notify-send"; "Unexpected editor nano! Falling back to vim"]],
       Raise (OSError 2)).
Proof.
  assert (H1 : EDITORS !! "nano" = None) by (vm_compute; reflexivity).
  assert (H2 : parse_uri "editor:///tmp/some file.org:3" silent_env
    = ([], Ok ("/tmp/some file.org", Some 3%Z))) by (vm_compute; reflexivity).
  assert (H3 : spawn silent_env
      ["notify-send"; "Unexpected editor " +:+ "nano" +:+ "! Falling back to vim"]
    = NotStarted (OSError 2)) by reflexivity.
  exact (conj H1 (conj H2 (conj H3
    (open_editor_fallback_needs_notifier silent_env
       "editor:///tmp/some file.org:3" "nano" _ _ _ H1 H2 H3)))).
Defined.
